(** * Gateway webhook ingestion and secret lifecycle (agola)

    A shallow embedding of
    [internal/services/gateway/api/webhook.go] (the webhook handler
    [webhooksHandler.do]) and of the secret actions of
    [internal/services/gateway/action] ([GetSecrets], [CreateSecret],
    [UpdateSecret], [DeleteSecret]).

    The handlers are sequential programs whose only effects are calls to
    collaborators: the configstore client, the git source, the run
    creation action, the logger and the request body.  They are embedded
    as terms of a free monad [Prog] over the calls they issue; [exec]
    runs a program against the answers of the collaborators and records
    the calls in the order in which they are made. *)

From stdpp Require Import base strings gmap list.
From Stdlib Require Import Ascii String List Bool Arith Lia.
Import ListNotations.
Local Open Scope string_scope.
Local Open Scope list_scope.

(** ** Errors *)

(** The error kinds of [util] that the handlers use. *)
Inductive ErrorKind : Type :=
| ErrBadRequest
| ErrForbidden
| ErrInternal.

(** Options handed to [util.NewAPIError]: a plain message, a formatted
    message (the format string and its arguments, left unformatted) and
    the detailed error code [serrors.InvalidSecretName()]. *)
Inductive APIErrorOption : Type :=
| WithAPIErrorMsg (msg : string)
| WithAPIErrorMsgf (format : string) (args : list string)
| InvalidSecretName.

(** Error values are kept as the terms that build them, so that a
    theorem can tell which constructor of the source made an error.
    [RemoteError] stands for an error produced by a collaborator. *)
Inductive error : Type :=
| RemoteError (msg : string)
| NewAPIError (kind : ErrorKind) (opts : list APIErrorOption)
| NewAPIErrorWrap (kind : ErrorKind) (err : error) (opts : list APIErrorOption)
| APIErrorFromRemoteError (err : error) (opts : list APIErrorOption)
| Wrapf (err : error) (format : string).

(** The answer of a collaborator whose Go signature is [(T, error)] (or
    [(T, *Response, error)]): the handlers read the value only when the
    error is nil. *)
Inductive result (T : Type) : Type :=
| Ok (v : T)
| Err (e : error).
Arguments Ok {T} v.
Arguments Err {T} e.

(** ** Data *)

(** [cstypes.ObjectKind].  The secret actions switch on the two kinds a
    secret can be attached to; [ObjectKindOther] stands for every other
    value of the Go type (its zero value, and the kinds of objects that
    are not parents of secrets), told apart by [kind]. *)
Inductive ObjectKind : Type :=
| ObjectKindProjectGroup
| ObjectKindProject
| ObjectKindOther (kind : string).

Module url.
(** [url.Values] is [map[string][]string]; [Get] returns the first
    value of the key, or the empty string. *)
Definition Get (v : gmap string (list string)) (key : string) : string :=
  match v !! key with
  | Some (x :: _) => x
  | _ => ""
  end.

Record URL : Type := { Text : string; Query : gmap string (list string) }.
End url.

Module Request.
Record t : Type := { URL : url.URL; Payload : string }.
End Request.

Module Project.
Record t : Type := {
  ID : string;
  LinkedAccountID : string;
  SSHPrivateKey : string;
  WebhookSecret : string;
  SkipSSHHostKeyCheck : bool
}.
End Project.

Module csapiProject.
(** [csapitypes.Project] embeds the [cstypes.Project]. *)
Record t : Type := { Project : Project.t }.
End csapiProject.

Module User.
Record t : Type := { ID : string; Name : string }.
End User.

Module LinkedAccount.
Record t : Type := { ID : string; RemoteSourceID : string }.
End LinkedAccount.

Module RemoteSource.
Record t : Type := {
  ID : string;
  SSHHostKey : string;
  SkipSSHHostKeyCheck : bool
}.
End RemoteSource.

(** The git source is an interface value made by [GetGitSource]; the
    handler only hands it on. *)
Inductive GitSource : Type := GitSourceFor (rs : RemoteSource.t) (userName : string) (la : LinkedAccount.t).

Module WebhookData.
Record t : Type := {
  Event : string;
  SSHURL : string;
  RepoPath : string;
  CommitSHA : string;
  Message : string;
  Branch : string;
  Tag : string;
  PullRequestID : string;
  PRFromSameRepo : bool;
  Ref : string;
  CommitLink : string;
  BranchLink : string;
  TagLink : string;
  PullRequestLink : string;
  CompareLink : string
}.
End WebhookData.

Inductive RunType : Type := RunTypeProject.
Inductive RunCreationTriggerType : Type := RunCreationTriggerTypeWebhook.
(** [common.WebHookEventToRunRefType] is applied, not inspected. *)
Inductive RunRefType : Type := WebHookEventToRunRefType (event : string).

Module CreateRunRequest.
Record t : Type := {
  RunType_ : RunType;
  RefType : RunRefType;
  RunCreationTrigger : RunCreationTriggerType;
  Project : Project.t;
  User : option User.t;
  RepoPath : string;
  GitSource_ : GitSource;
  CommitSHA : string;
  Message : string;
  Branch : string;
  Tag : string;
  PullRequestID : string;
  PRFromSameRepo : bool;
  Ref : string;
  SSHPrivKey : string;
  SSHHostKey : string;
  SkipSSHHostKeyCheck : bool;
  CloneURL : string;
  CommitLink : string;
  BranchLink : string;
  TagLink : string;
  PullRequestLink : string;
  CompareLink : string
}.
End CreateRunRequest.

(** [cstypes.SecretType]: the spec's data model lists the two kinds. *)
Inductive SecretType : Type :=
| SecretTypeInternal
| SecretTypeExternal.

Module Secret.
(** Modelled from the spec: [csapitypes.Secret] is declared outside the
    embedded sources.  The handlers read [Name] and [ID]; the
    shadowing filter of section 4.5 works on secrets "each tagged with
    the hierarchy depth/level they came from", kept here as [Level]
    (a greater level is deeper, closer to the leaf project), next to
    the kind of the parent the secret is attached to. *)
Record t : Type := {
  ID : string;
  Name : string;
  ParentKind : ObjectKind;
  Level : nat
}.
End Secret.

Module CreateUpdateSecretRequest.
(** [csapitypes.CreateUpdateSecretRequest], the payload sent to the
    store. *)
Record t : Type := {
  Name : string;
  Type_ : SecretType;
  Data : gmap string string
}.
End CreateUpdateSecretRequest.

Module GetSecretsRequest.
Record t : Type := {
  ParentType : ObjectKind;
  ParentRef : string;
  Tree : bool;
  RemoveOverridden : bool
}.
End GetSecretsRequest.

Module CreateSecretRequest.
Record t : Type := {
  Name : string;
  ParentType : ObjectKind;
  ParentRef : string;
  Type_ : SecretType;
  Data : gmap string string;
  SecretProviderID : string;
  Path : string
}.
End CreateSecretRequest.

Module UpdateSecretRequest.
Record t : Type := {
  SecretName : string;
  Name : string;
  ParentType : ObjectKind;
  ParentRef : string;
  Type_ : SecretType;
  Data : gmap string string;
  SecretProviderID : string;
  Path : string
}.
End UpdateSecretRequest.

(** ** Collaborator calls *)

(** Every call a handler makes on a collaborator, indexed by the type of
    its answer.  The context argument and the [*Response] of the
    configstore client are dropped: no handler reads them. *)
Inductive Call : Type -> Type :=
(* the request body *)
| BodyClose : Call unit
(* zerolog *)
| LogInfo (msg : string) : Call unit
| LogInfof (format : string) (args : list string) : Call unit
(* configstore client, lookups *)
| GetProject (projectID : string) : Call (result csapiProject.t)
| GetUserByLinkedAccount (linkedAccountID : string) : Call (result User.t)
| GetUserLinkedAccounts (userID : string) : Call (result (list LinkedAccount.t))
| GetRemoteSource (remoteSourceID : string) : Call (result RemoteSource.t)
| GetProjectGroupSecrets (ref : string) (tree : bool) : Call (result (list Secret.t))
| GetProjectSecrets (ref : string) (tree : bool) : Call (result (list Secret.t))
(* configstore client, mutations *)
| CreateProjectGroupSecret (ref : string) (creq : CreateUpdateSecretRequest.t) : Call (result Secret.t)
| CreateProjectSecret (ref : string) (creq : CreateUpdateSecretRequest.t) : Call (result Secret.t)
| UpdateProjectGroupSecret (ref secretName : string) (creq : CreateUpdateSecretRequest.t) : Call (result Secret.t)
| UpdateProjectSecret (ref secretName : string) (creq : CreateUpdateSecretRequest.t) : Call (result Secret.t)
| DeleteProjectGroupSecret (ref name : string) : Call (option error)
| DeleteProjectSecret (ref name : string) : Call (option error)
(* action handler *)
| IsAuthUserVariableOwner (parentType : ObjectKind) (parentRef : string) : Call (result bool)
| GetGitSource (rs : RemoteSource.t) (userName : string) (la : LinkedAccount.t) : Call (result GitSource)
| CreateRuns (req : CreateRunRequest.t) : Call (option error)
(* git source *)
| ParseWebhook (gs : GitSource) (r : Request.t) (secret : string) : Call (result (option WebhookData.t)).

(** A call together with the answer it got. *)
Inductive Event : Type :=
| Ev {X : Type} (c : Call X) (x : X).

(** ** Programs *)

(** A handler either returns, panics (a nil pointer dereference), or
    makes a call and goes on with its answer. *)
Inductive Prog (R : Type) : Type :=
| Ret (r : R)
| Panic
| Vis {X : Type} (c : Call X) (k : X -> Prog R).
Arguments Ret {R} r.
Arguments Panic {R}.
Arguments Vis {R X} c k.

Fixpoint bind {A B : Type} (p : Prog A) (f : A -> Prog B) : Prog B :=
  match p with
  | Ret a => f a
  | Panic => Panic
  | Vis c k => Vis c (fun x => bind (k x) f)
  end.

Definition call {X : Type} (c : Call X) : Prog X := Vis c Ret.

Notation "'let*' x ':=' c 'in' k" := (bind c (fun x => k))
  (at level 10, x pattern, c at level 100, k at level 200).

(** Go's [defer c]: the deferred call runs when the surrounding function
    leaves, by a return or by a panic. *)
Fixpoint defer {R : Type} (c : Call unit) (p : Prog R) : Prog R :=
  match p with
  | Ret r => Vis c (fun _ => Ret r)
  | Panic => Vis c (fun _ => Panic)
  | Vis c' k => Vis c' (fun x => defer c (k x))
  end.

Inductive Outcome (R : Type) : Type :=
| Returned (r : R)
| Panicked.
Arguments Returned {R} r.
Arguments Panicked {R}.

(** The collaborators: an answer for every call.  A handler makes each of
    its calls at most once in a run, so answers need not depend on the
    calls made before. *)
Definition World : Type := forall X : Type, Call X -> X.

(** [exec w p] runs [p] against [w]: the outcome and the calls made, in
    order. *)
Fixpoint exec {R : Type} (w : World) (p : Prog R) : Outcome R * list Event :=
  match p with
  | Ret r => (Returned r, [])
  | Panic => (Panicked, [])
  | Vis c k =>
      let x := w _ c in
      let '(o, tr) := exec w (k x) in
      (o, Ev c x :: tr)
  end.

Definition outcome {R : Type} (w : World) (p : Prog R) : Outcome R := fst (exec w p).
Definition trace {R : Type} (w : World) (p : Prog R) : list Event := snd (exec w p).

(** ** The webhook handler *)

(** Lines 104-110 of [webhooksHandler.do]: the remote source's flag,
    overridden by the project's flag when that one is set. *)
Definition effectiveSkipSSHHostKeyCheck (rs : RemoteSource.t) (project : Project.t) : bool :=
  let skipSSHHostKeyCheck := RemoteSource.SkipSSHHostKeyCheck rs in
  if Project.SkipSSHHostKeyCheck project
  then Project.SkipSSHHostKeyCheck project
  else skipSSHHostKeyCheck.

(** The request handed to [CreateRuns] (lines 123-151). *)
Definition newCreateRunRequest (project : Project.t) (rs : RemoteSource.t)
    (gitSource : GitSource) (webhookData : WebhookData.t) : CreateRunRequest.t :=
  let sshPrivKey := Project.SSHPrivateKey project in
  let sshHostKey := RemoteSource.SSHHostKey rs in
  let skipSSHHostKeyCheck := effectiveSkipSSHHostKeyCheck rs project in
  let cloneURL := WebhookData.SSHURL webhookData in
  {| CreateRunRequest.RunType_ := RunTypeProject;
     CreateRunRequest.RefType := WebHookEventToRunRefType (WebhookData.Event webhookData);
     CreateRunRequest.RunCreationTrigger := RunCreationTriggerTypeWebhook;
     CreateRunRequest.Project := project;
     CreateRunRequest.User := None;
     CreateRunRequest.RepoPath := WebhookData.RepoPath webhookData;
     CreateRunRequest.GitSource_ := gitSource;
     CreateRunRequest.CommitSHA := WebhookData.CommitSHA webhookData;
     CreateRunRequest.Message := WebhookData.Message webhookData;
     CreateRunRequest.Branch := WebhookData.Branch webhookData;
     CreateRunRequest.Tag := WebhookData.Tag webhookData;
     CreateRunRequest.PullRequestID := WebhookData.PullRequestID webhookData;
     CreateRunRequest.PRFromSameRepo := WebhookData.PRFromSameRepo webhookData;
     CreateRunRequest.Ref := WebhookData.Ref webhookData;
     CreateRunRequest.SSHPrivKey := sshPrivKey;
     CreateRunRequest.SSHHostKey := sshHostKey;
     CreateRunRequest.SkipSSHHostKeyCheck := skipSSHHostKeyCheck;
     CreateRunRequest.CloneURL := cloneURL;
     CreateRunRequest.CommitLink := WebhookData.CommitLink webhookData;
     CreateRunRequest.BranchLink := WebhookData.BranchLink webhookData;
     CreateRunRequest.TagLink := WebhookData.TagLink webhookData;
     CreateRunRequest.PullRequestLink := WebhookData.PullRequestLink webhookData;
     CreateRunRequest.CompareLink := WebhookData.CompareLink webhookData |}.

(** The scan of lines 82-88: the first linked account with the id. *)
Definition findLinkedAccount (linkedAccountID : string) (linkedAccounts : list LinkedAccount.t)
    : option LinkedAccount.t :=
  List.find (fun v => String.eqb (LinkedAccount.ID v) linkedAccountID) linkedAccounts.

(** Lines 67-156: what [do] runs once [defer r.Body.Close()] is set. *)
Definition doBody (r : Request.t) (projectID : string) : Prog (option error) :=
  let* res := call (GetProject projectID) in
  match res with
  | Err err => Ret (Some (APIErrorFromRemoteError err [WithAPIErrorMsgf "failed to get project %s" [projectID]]))
  | Ok csProject =>
  let project := csapiProject.Project csProject in
  let* res := call (GetUserByLinkedAccount (Project.LinkedAccountID project)) in
  match res with
  | Err err => Ret (Some (APIErrorFromRemoteError err
                 [WithAPIErrorMsgf "failed to get user by linked account %q" [Project.LinkedAccountID project]]))
  | Ok user =>
  let* res := call (GetUserLinkedAccounts (User.ID user)) in
  match res with
  | Err err => Ret (Some (APIErrorFromRemoteError err
                 [WithAPIErrorMsgf "failed to get user %q linked accounts" [User.ID user]]))
  | Ok linkedAccounts =>
  match findLinkedAccount (Project.LinkedAccountID project) linkedAccounts with
  | None => Ret (Some (NewAPIError ErrInternal
                 [WithAPIErrorMsgf "linked account %q for user %q doesn't exist"
                    [Project.LinkedAccountID project; User.Name user]]))
  | Some la =>
  let* res := call (GetRemoteSource (LinkedAccount.RemoteSourceID la)) in
  match res with
  | Err err => Ret (Some (APIErrorFromRemoteError err
                 [WithAPIErrorMsgf "failed to get remote source %q" [LinkedAccount.RemoteSourceID la]]))
  | Ok rs =>
  let* res := call (GetGitSource rs (User.Name user) la) in
  match res with
  | Err err => Ret (Some (NewAPIErrorWrap ErrInternal err [WithAPIErrorMsg "failed to create gitea client"]))
  | Ok gitSource =>
  let* res := call (ParseWebhook gitSource r (Project.WebhookSecret project)) in
  match res with
  | Err err => Ret (Some (NewAPIErrorWrap ErrBadRequest err [WithAPIErrorMsg "failed to parse webhook"]))
  | Ok None =>
      let* _ := call (LogInfo "skipping webhook") in
      Ret None
  | Ok (Some webhookData) =>
  let req := newCreateRunRequest project rs gitSource webhookData in
  let* res := call (CreateRuns req) in
  match res with
  | Some err => Ret (Some (NewAPIErrorWrap ErrInternal err [WithAPIErrorMsg "failed to create run"]))
  | None => Ret None
  end end end end end end end end.

(** [webhooksHandler.do] (lines 57-157).  The deferred close of the body
    is set after the check of [projectid]. *)
Definition do (r : Request.t) : Prog (option error) :=
  let projectID := url.Get (url.Query (Request.URL r)) "projectid" in
  if String.eqb projectID ""
  then Ret (Some (NewAPIError ErrBadRequest
         [WithAPIErrorMsgf "bad webhook url %q. Missing projectid" [url.Text (Request.URL r)]]))
  else defer BodyClose (doBody r projectID).

(** ** The secret actions *)

(** A Go call [v, _, err = f(...)] on an answer: the value is read only
    when [err] is nil. *)
Definition assignList {T : Type} (res : result (list T)) : list T * option error :=
  match res with
  | Ok l => (l, None)
  | Err e => ([], Some e)
  end.

Definition assignPtr {T : Type} (res : result T) : option T * option error :=
  match res with
  | Ok v => (Some v, None)
  | Err e => (None, Some e)
  end.

(** Modelled from the spec: [common.FilterOverriddenSecrets] is not among
    the embedded sources.  Section 4.5: the output keeps, "for each
    distinct name, only the secret from the most specific (deepest /
    closest to the leaf Project) level; secrets from shallower ancestor
    levels with the same name are dropped".  The secrets that stay keep
    the order of the input. *)
Definition overridden (secrets : list Secret.t) (s : Secret.t) : bool :=
  existsb (fun t => String.eqb (Secret.Name t) (Secret.Name s)
                    && Nat.ltb (Secret.Level s) (Secret.Level t)) secrets.

Definition FilterOverriddenSecrets (secrets : list Secret.t) : list Secret.t :=
  List.filter (fun s => negb (overridden secrets s)) secrets.

(** [ActionHandler.GetSecrets] (lines 194-213). *)
Definition GetSecrets (req : GetSecretsRequest.t) : Prog (list Secret.t * option error) :=
  let* (cssecrets, err) :=
    match GetSecretsRequest.ParentType req with
    | ObjectKindProjectGroup =>
        let* res := call (GetProjectGroupSecrets (GetSecretsRequest.ParentRef req) (GetSecretsRequest.Tree req)) in
        Ret (assignList res)
    | ObjectKindProject =>
        let* res := call (GetProjectSecrets (GetSecretsRequest.ParentRef req) (GetSecretsRequest.Tree req)) in
        Ret (assignList res)
    | ObjectKindOther _ => Ret ([], None)
    end in
  match err with
  | Some err => Ret ([], Some (APIErrorFromRemoteError err []))
  | None =>
      let cssecrets :=
        if GetSecretsRequest.RemoveOverridden req
        then FilterOverriddenSecrets cssecrets
        else cssecrets in
      Ret (cssecrets, None)
  end.

Section SecretActions.

(** [util.ValidateName], the name-syntax rule, is not among the
    embedded sources: the actions are embedded over any rule. *)
Variable ValidateName : string -> bool.

(** [ActionHandler.CreateSecret] (lines 231-265).  When no case of the
    switch runs, [rs] is still nil and [err] is still the nil of the
    ownership check; [rs.Name] then dereferences nil. *)
Definition CreateSecret (req : CreateSecretRequest.t) : Prog (option Secret.t * option error) :=
  let* res := call (IsAuthUserVariableOwner (CreateSecretRequest.ParentType req)
                                            (CreateSecretRequest.ParentRef req)) in
  match res with
  | Err err => Ret (None, Some (Wrapf err "failed to determine ownership"))
  | Ok isVariableOwner =>
  if negb isVariableOwner
  then Ret (None, Some (NewAPIError ErrForbidden [WithAPIErrorMsg "user not authorized"]))
  else
  if negb (ValidateName (CreateSecretRequest.Name req))
  then Ret (None, Some (NewAPIError ErrBadRequest
         [WithAPIErrorMsgf "invalid secret name %q" [CreateSecretRequest.Name req]; InvalidSecretName]))
  else
  let creq := {| CreateUpdateSecretRequest.Name := CreateSecretRequest.Name req;
                 CreateUpdateSecretRequest.Type_ := CreateSecretRequest.Type_ req;
                 CreateUpdateSecretRequest.Data := CreateSecretRequest.Data req |} in
  let* (rs, err) :=
    match CreateSecretRequest.ParentType req with
    | ObjectKindProjectGroup =>
        let* _ := call (LogInfo "creating project group secret") in
        let* res := call (CreateProjectGroupSecret (CreateSecretRequest.ParentRef req) creq) in
        Ret (assignPtr res)
    | ObjectKindProject =>
        let* _ := call (LogInfo "creating project secret") in
        let* res := call (CreateProjectSecret (CreateSecretRequest.ParentRef req) creq) in
        Ret (assignPtr res)
    | ObjectKindOther _ => Ret (None, None)
    end in
  match err with
  | Some err => Ret (None, Some (APIErrorFromRemoteError err [WithAPIErrorMsg "failed to create secret"]))
  | None =>
      match rs with
      | None => Panic
      | Some s =>
          let* _ := call (LogInfof "secret %s created, ID: %s" [Secret.Name s; Secret.ID s]) in
          Ret (Some s, None)
      end
  end
  end.

(** [ActionHandler.UpdateSecret] (lines 285-319). *)
Definition UpdateSecret (req : UpdateSecretRequest.t) : Prog (option Secret.t * option error) :=
  let* res := call (IsAuthUserVariableOwner (UpdateSecretRequest.ParentType req)
                                            (UpdateSecretRequest.ParentRef req)) in
  match res with
  | Err err => Ret (None, Some (Wrapf err "failed to determine ownership"))
  | Ok isVariableOwner =>
  if negb isVariableOwner
  then Ret (None, Some (NewAPIError ErrForbidden [WithAPIErrorMsg "user not authorized"]))
  else
  if negb (ValidateName (UpdateSecretRequest.Name req))
  then Ret (None, Some (NewAPIError ErrBadRequest
         [WithAPIErrorMsgf "invalid secret name %q" [UpdateSecretRequest.Name req]; InvalidSecretName]))
  else
  let creq := {| CreateUpdateSecretRequest.Name := UpdateSecretRequest.Name req;
                 CreateUpdateSecretRequest.Type_ := UpdateSecretRequest.Type_ req;
                 CreateUpdateSecretRequest.Data := UpdateSecretRequest.Data req |} in
  let* (rs, err) :=
    match UpdateSecretRequest.ParentType req with
    | ObjectKindProjectGroup =>
        let* _ := call (LogInfo "updating project group secret") in
        let* res := call (UpdateProjectGroupSecret (UpdateSecretRequest.ParentRef req)
                            (UpdateSecretRequest.SecretName req) creq) in
        Ret (assignPtr res)
    | ObjectKindProject =>
        let* _ := call (LogInfo "updating project secret") in
        let* res := call (UpdateProjectSecret (UpdateSecretRequest.ParentRef req)
                            (UpdateSecretRequest.SecretName req) creq) in
        Ret (assignPtr res)
    | ObjectKindOther _ => Ret (None, None)
    end in
  match err with
  | Some err => Ret (None, Some (APIErrorFromRemoteError err [WithAPIErrorMsg "failed to update secret"]))
  | None =>
      match rs with
      | None => Panic
      | Some s =>
          let* _ := call (LogInfof "secret %s updated, ID: %s" [Secret.Name s; Secret.ID s]) in
          Ret (Some s, None)
      end
  end
  end.

End SecretActions.

(** [ActionHandler.DeleteSecret] (lines 321-342). *)
Definition DeleteSecret (parentType : ObjectKind) (parentRef name : string) : Prog (option error) :=
  let* res := call (IsAuthUserVariableOwner parentType parentRef) in
  match res with
  | Err err => Ret (Some (Wrapf err "failed to determine ownership"))
  | Ok isVariableOwner =>
  if negb isVariableOwner
  then Ret (Some (NewAPIError ErrForbidden [WithAPIErrorMsg "user not authorized"]))
  else
  let* err :=
    match parentType with
    | ObjectKindProjectGroup =>
        let* _ := call (LogInfo "deleting project group secret") in
        call (DeleteProjectGroupSecret parentRef name)
    | ObjectKindProject =>
        let* _ := call (LogInfo "deleting project secret") in
        call (DeleteProjectSecret parentRef name)
    | ObjectKindOther _ => Ret None
    end in
  match err with
  | Some err => Ret (Some (APIErrorFromRemoteError err [WithAPIErrorMsg "failed to delete secret"]))
  | None => Ret None
  end
  end.

(** ** Classes of calls *)

(** The lookups and actions [do] makes on remote collaborators: project,
    user, linked accounts and remote source lookups, the making of the
    git source, the parsing of the payload and the creation of runs. *)
Definition isRemoteCall {X : Type} (c : Call X) : bool :=
  match c with
  | BodyClose | LogInfo _ | LogInfof _ _ => false
  | _ => true
  end.

(** The create, update and delete calls of the store client. *)
Definition isStoreMutation {X : Type} (c : Call X) : bool :=
  match c with
  | CreateProjectGroupSecret _ _ | CreateProjectSecret _ _
  | UpdateProjectGroupSecret _ _ _ | UpdateProjectSecret _ _ _
  | DeleteProjectGroupSecret _ _ | DeleteProjectSecret _ _ => true
  | _ => false
  end.

(** Every call on the store client. *)
Definition isStoreCall {X : Type} (c : Call X) : bool :=
  match c with
  | GetProject _ | GetUserByLinkedAccount _ | GetUserLinkedAccounts _
  | GetRemoteSource _ | GetProjectGroupSecrets _ _ | GetProjectSecrets _ _ => true
  | c => isStoreMutation c
  end.

Definition isCreateRuns {X : Type} (c : Call X) : bool :=
  match c with
  | CreateRuns _ => true
  | _ => false
  end.

Definition isBodyClose {X : Type} (c : Call X) : bool :=
  match c with
  | BodyClose => true
  | _ => false
  end.

(** The parser was called and answered [(nil, nil)]. *)
Definition parserReturnedNil (e : Event) : bool :=
  match e with
  | Ev c x =>
      match c in Call X return X -> bool with
      | ParseWebhook _ _ _ => fun x => match x with Ok None => true | _ => false end
      | _ => fun _ => false
      end x
  end.

(** [made P tr]: some call of [tr] is in the class [P]. *)
Definition made (P : forall X : Type, Call X -> bool) (tr : list Event) : bool :=
  existsb (fun e => match e with Ev c _ => P _ c end) tr.

(** ** Sample collaborators

    Concrete requests and answers, used to run the handlers. *)
Module Sample.

Definition project : Project.t :=
  {| Project.ID := "p1"; Project.LinkedAccountID := "la1";
     Project.SSHPrivateKey := "privkey"; Project.WebhookSecret := "s3cr3t";
     Project.SkipSSHHostKeyCheck := true |}.

Definition user : User.t := {| User.ID := "u1"; User.Name := "alice" |}.

Definition la0 : LinkedAccount.t := {| LinkedAccount.ID := "la0"; LinkedAccount.RemoteSourceID := "rs0" |}.
Definition la1 : LinkedAccount.t := {| LinkedAccount.ID := "la1"; LinkedAccount.RemoteSourceID := "rs1" |}.

Definition remoteSource : RemoteSource.t :=
  {| RemoteSource.ID := "rs1"; RemoteSource.SSHHostKey := "hostkey";
     RemoteSource.SkipSSHHostKeyCheck := false |}.

Definition webhookData : WebhookData.t :=
  {| WebhookData.Event := "push"; WebhookData.SSHURL := "git@host:org/repo.git";
     WebhookData.RepoPath := "org/repo"; WebhookData.CommitSHA := "c0ffee";
     WebhookData.Message := "msg"; WebhookData.Branch := "main"; WebhookData.Tag := "";
     WebhookData.PullRequestID := ""; WebhookData.PRFromSameRepo := false;
     WebhookData.Ref := "refs/heads/main"; WebhookData.CommitLink := "";
     WebhookData.BranchLink := ""; WebhookData.TagLink := "";
     WebhookData.PullRequestLink := ""; WebhookData.CompareLink := "" |}.

(** The three secrets of the shadowing example: "A" on a project group
    and on the project below it, "B" on the project group. *)
Definition secretAGroup : Secret.t :=
  {| Secret.ID := "1"; Secret.Name := "A"; Secret.ParentKind := ObjectKindProjectGroup; Secret.Level := 1 |}.
Definition secretAProject : Secret.t :=
  {| Secret.ID := "2"; Secret.Name := "A"; Secret.ParentKind := ObjectKindProject; Secret.Level := 2 |}.
Definition secretBGroup : Secret.t :=
  {| Secret.ID := "3"; Secret.Name := "B"; Secret.ParentKind := ObjectKindProjectGroup; Secret.Level := 1 |}.

Definition stored (creq : CreateUpdateSecretRequest.t) (kind : ObjectKind) (level : nat) : Secret.t :=
  {| Secret.ID := "new"; Secret.Name := CreateUpdateSecretRequest.Name creq;
     Secret.ParentKind := kind; Secret.Level := level |}.

(** Collaborators that answer every lookup, given what the ownership
    check, the user's linked accounts and the parser are to answer. *)
Definition world (isOwner : bool) (linkedAccounts : list LinkedAccount.t)
    (parsed : result (option WebhookData.t)) : World :=
  fun X c =>
    match c in Call X return X with
    | BodyClose => tt
    | LogInfo _ => tt
    | LogInfof _ _ => tt
    | GetProject _ => Ok {| csapiProject.Project := project |}
    | GetUserByLinkedAccount _ => Ok user
    | GetUserLinkedAccounts _ => Ok linkedAccounts
    | GetRemoteSource _ => Ok remoteSource
    | GetProjectGroupSecrets _ _ => Ok [secretAGroup; secretBGroup]
    | GetProjectSecrets _ _ => Ok [secretAGroup; secretAProject; secretBGroup]
    | CreateProjectGroupSecret _ creq => Ok (stored creq ObjectKindProjectGroup 1)
    | CreateProjectSecret _ creq => Ok (stored creq ObjectKindProject 2)
    | UpdateProjectGroupSecret _ _ creq => Ok (stored creq ObjectKindProjectGroup 1)
    | UpdateProjectSecret _ _ creq => Ok (stored creq ObjectKindProject 2)
    | DeleteProjectGroupSecret _ _ => None
    | DeleteProjectSecret _ _ => None
    | IsAuthUserVariableOwner _ _ => Ok isOwner
    | GetGitSource rs userName la => Ok (GitSourceFor rs userName la)
    | CreateRuns _ => None
    | ParseWebhook _ _ _ => parsed
    end.

(** A delivery for project "p1", and one whose URL has no query. *)
Definition request : Request.t :=
  {| Request.URL := {| url.Text := "/webhooks?projectid=p1";
                       url.Query := {[ "projectid" := ["p1"] ]} |};
     Request.Payload := "{}" |}.

Definition requestNoProjectID : Request.t :=
  {| Request.URL := {| url.Text := "/webhooks"; url.Query := ∅ |};
     Request.Payload := "{}" |}.

(** A name rule for the runs below: a name is a non-empty string
    without a space. *)
Fixpoint hasSpace (s : string) : bool :=
  match s with
  | EmptyString => false
  | String a s' => Ascii.eqb a " "%char || hasSpace s'
  end.

Definition validateName (s : string) : bool :=
  negb (String.eqb s "") && negb (hasSpace s).

Definition createRequest (name : string) (kind : ObjectKind) : CreateSecretRequest.t :=
  {| CreateSecretRequest.Name := name; CreateSecretRequest.ParentType := kind;
     CreateSecretRequest.ParentRef := "ref"; CreateSecretRequest.Type_ := SecretTypeInternal;
     CreateSecretRequest.Data := {[ "k" := "v" ]};
     CreateSecretRequest.SecretProviderID := ""; CreateSecretRequest.Path := "" |}.

Definition updateRequest (name : string) (kind : ObjectKind) : UpdateSecretRequest.t :=
  {| UpdateSecretRequest.SecretName := "old"; UpdateSecretRequest.Name := name;
     UpdateSecretRequest.ParentType := kind;
     UpdateSecretRequest.ParentRef := "ref"; UpdateSecretRequest.Type_ := SecretTypeInternal;
     UpdateSecretRequest.Data := {[ "k" := "v" ]};
     UpdateSecretRequest.SecretProviderID := ""; UpdateSecretRequest.Path := "" |}.

End Sample.


(** ** Named errors

    The error values the handlers build, named for the statements below. *)

(** Line 62. *)
Definition missingProjectIDError (r : Request.t) : error :=
  NewAPIError ErrBadRequest
    [WithAPIErrorMsgf "bad webhook url %q. Missing projectid" [url.Text (Request.URL r)]].

(** Line 91. *)
Definition missingLinkedAccountError (project : Project.t) (user : User.t) : error :=
  NewAPIError ErrInternal
    [WithAPIErrorMsgf "linked account %q for user %q doesn't exist"
       [Project.LinkedAccountID project; User.Name user]].

(** Lines 237, 291 and 327. *)
Definition notAuthorizedError : error :=
  NewAPIError ErrForbidden [WithAPIErrorMsg "user not authorized"].

(** Lines 241 and 295. *)
Definition invalidSecretNameError (name : string) : error :=
  NewAPIError ErrBadRequest
    [WithAPIErrorMsgf "invalid secret name %q" [name]; InvalidSecretName].

(** One step of a run: case on the answer the collaborators give to the
    next call. *)
Ltac answer w :=
  match goal with
  | |- context [w ?X ?c] =>
      lazymatch c with
      | BodyClose => fail
      | LogInfo _ => fail
      | LogInfof _ _ => fail
      | _ => let E := fresh "E" in destruct (w X c) eqn:E; simpl
      end
  end.

(** Lines 234, 288 and 324. *)
Definition ownershipError (err : error) : error :=
  Wrapf err "failed to determine ownership".

(** ** Reading traces *)

(** More classes of calls. *)
Definition isOwnershipCheck {X : Type} (c : Call X) : bool :=
  match c with
  | IsAuthUserVariableOwner _ _ => true
  | _ => false
  end.

(** The four lookups [do] makes on the store client (lines 67-97). *)
Definition isLookup {X : Type} (c : Call X) : bool :=
  match c with
  | GetProject _ | GetUserByLinkedAccount _ | GetUserLinkedAccounts _
  | GetRemoteSource _ => true
  | _ => false
  end.

Definition isGetGitSource {X : Type} (c : Call X) : bool :=
  match c with
  | GetGitSource _ _ _ => true
  | _ => false
  end.

Definition isParseWebhook {X : Type} (c : Call X) : bool :=
  match c with
  | ParseWebhook _ _ _ => true
  | _ => false
  end.

Definition isLog {X : Type} (c : Call X) : bool :=
  match c with
  | LogInfo _ | LogInfof _ _ => true
  | _ => false
  end.

(** How many calls of a run are in a class. *)
Definition count (P : forall X : Type, Call X -> bool) (tr : list Event) : nat :=
  length (List.filter (fun e => match e with Ev c _ => P _ c end) tr).

Definition errOf {T : Type} (res : result T) : option error :=
  match res with
  | Ok _ => None
  | Err e => Some e
  end.

(** The non-nil error a call was answered with, if any. *)
Definition failure (e : Event) : option error :=
  match e with
  | Ev c x =>
      match c in Call X return X -> option error with
      | BodyClose => fun _ => None
      | LogInfo _ => fun _ => None
      | LogInfof _ _ => fun _ => None
      | GetProject _ => errOf
      | GetUserByLinkedAccount _ => errOf
      | GetUserLinkedAccounts _ => errOf
      | GetRemoteSource _ => errOf
      | GetProjectGroupSecrets _ _ => errOf
      | GetProjectSecrets _ _ => errOf
      | CreateProjectGroupSecret _ _ => errOf
      | CreateProjectSecret _ _ => errOf
      | UpdateProjectGroupSecret _ _ _ => errOf
      | UpdateProjectSecret _ _ _ => errOf
      | DeleteProjectGroupSecret _ _ => fun x => x
      | DeleteProjectSecret _ _ => fun x => x
      | IsAuthUserVariableOwner _ _ => errOf
      | GetGitSource _ _ _ => errOf
      | CreateRuns _ => fun x => x
      | ParseWebhook _ _ _ => errOf
      end x
  end.

(** The errors answered to the calls of a class, in order. *)
Fixpoint failures (P : forall X : Type, Call X -> bool) (tr : list Event) : list error :=
  match tr with
  | [] => []
  | (Ev c _ as e) :: tr' =>
      match (if P _ c then failure e else None) with
      | Some err => err :: failures P tr'
      | None => failures P tr'
      end
  end.

(** The calls made after the first call that failed. *)
Fixpoint afterFirstFailure (tr : list Event) : option (list Event) :=
  match tr with
  | [] => None
  | e :: tr' =>
      match failure e with
      | Some _ => Some tr'
      | None => afterFirstFailure tr'
      end
  end.


(** The requests handed to the run creation, in order. *)
Fixpoint createRunsRequests (tr : list Event) : list CreateRunRequest.t :=
  match tr with
  | [] => []
  | Ev c _ :: tr' =>
      match c with
      | CreateRuns req => req :: createRunsRequests tr'
      | _ => createRunsRequests tr'
      end
  end.

(** The mutations asked of the store: the operation, the kind of the
    parent, its reference, the secret addressed (an empty name for a
    create, which addresses none) and the payload, if any. *)
Inductive StoreOp : Type :=
| OpCreate
| OpUpdate
| OpDelete.

Module Mutation.
Record t : Type := {
  Op : StoreOp;
  Kind : ObjectKind;
  Ref : string;
  Target : string;
  Payload : option CreateUpdateSecretRequest.t
}.
End Mutation.

Definition mutationOf {X : Type} (c : Call X) : option Mutation.t :=
  match c with
  | CreateProjectGroupSecret ref creq =>
      Some {| Mutation.Op := OpCreate; Mutation.Kind := ObjectKindProjectGroup;
              Mutation.Ref := ref; Mutation.Target := ""; Mutation.Payload := Some creq |}
  | CreateProjectSecret ref creq =>
      Some {| Mutation.Op := OpCreate; Mutation.Kind := ObjectKindProject;
              Mutation.Ref := ref; Mutation.Target := ""; Mutation.Payload := Some creq |}
  | UpdateProjectGroupSecret ref secretName creq =>
      Some {| Mutation.Op := OpUpdate; Mutation.Kind := ObjectKindProjectGroup;
              Mutation.Ref := ref; Mutation.Target := secretName; Mutation.Payload := Some creq |}
  | UpdateProjectSecret ref secretName creq =>
      Some {| Mutation.Op := OpUpdate; Mutation.Kind := ObjectKindProject;
              Mutation.Ref := ref; Mutation.Target := secretName; Mutation.Payload := Some creq |}
  | DeleteProjectGroupSecret ref name =>
      Some {| Mutation.Op := OpDelete; Mutation.Kind := ObjectKindProjectGroup;
              Mutation.Ref := ref; Mutation.Target := name; Mutation.Payload := None |}
  | DeleteProjectSecret ref name =>
      Some {| Mutation.Op := OpDelete; Mutation.Kind := ObjectKindProject;
              Mutation.Ref := ref; Mutation.Target := name; Mutation.Payload := None |}
  | _ => None
  end.

Fixpoint mutations (tr : list Event) : list Mutation.t :=
  match tr with
  | [] => []
  | Ev c _ :: tr' =>
      match mutationOf c with
      | Some m => m :: mutations tr'
      | None => mutations tr'
      end
  end.

(** The payload create and update send to the store (lines 244-248 and
    298-302). *)
Definition payload (name : string) (type : SecretType) (data : gmap string string)
    : CreateUpdateSecretRequest.t :=
  {| CreateUpdateSecretRequest.Name := name;
     CreateUpdateSecretRequest.Type_ := type;
     CreateUpdateSecretRequest.Data := data |}.

(** ** Scenarios

    Collaborators given by the answer of each of them, to run the
    handlers through their failure paths. *)
Module Scenario.

Record t : Type := {
  project : result csapiProject.t;
  user : result User.t;
  linkedAccounts : result (list LinkedAccount.t);
  remoteSource : result RemoteSource.t;
  gitSource : option error;
  parsed : result (option WebhookData.t);
  runs : option error;
  owner : result bool;
  secrets : result (list Secret.t);
  written : option error;
  deleted : option error
}.

Definition world (s : t) : World :=
  fun X c =>
    match c in Call X return X with
    | BodyClose => tt
    | LogInfo _ => tt
    | LogInfof _ _ => tt
    | GetProject _ => project s
    | GetUserByLinkedAccount _ => user s
    | GetUserLinkedAccounts _ => linkedAccounts s
    | GetRemoteSource _ => remoteSource s
    | GetProjectGroupSecrets _ _ => secrets s
    | GetProjectSecrets _ _ => secrets s
    | CreateProjectGroupSecret _ creq =>
        match written s with
        | Some e => Err e
        | None => Ok (Sample.stored creq ObjectKindProjectGroup 1)
        end
    | CreateProjectSecret _ creq =>
        match written s with
        | Some e => Err e
        | None => Ok (Sample.stored creq ObjectKindProject 2)
        end
    | UpdateProjectGroupSecret _ _ creq =>
        match written s with
        | Some e => Err e
        | None => Ok (Sample.stored creq ObjectKindProjectGroup 1)
        end
    | UpdateProjectSecret _ _ creq =>
        match written s with
        | Some e => Err e
        | None => Ok (Sample.stored creq ObjectKindProject 2)
        end
    | DeleteProjectGroupSecret _ _ => deleted s
    | DeleteProjectSecret _ _ => deleted s
    | IsAuthUserVariableOwner _ _ => owner s
    | GetGitSource rs userName la =>
        match gitSource s with
        | Some e => Err e
        | None => Ok (GitSourceFor rs userName la)
        end
    | CreateRuns _ => runs s
    | ParseWebhook _ _ _ => parsed s
    end.

(** Every collaborator answers; the caller owns the variables. *)
Definition ok : t :=
  {| project := Ok {| csapiProject.Project := Sample.project |};
     user := Ok Sample.user;
     linkedAccounts := Ok [Sample.la0; Sample.la1];
     remoteSource := Ok Sample.remoteSource;
     gitSource := None;
     parsed := Ok (Some Sample.webhookData);
     runs := None;
     owner := Ok true;
     secrets := Ok [Sample.secretAGroup; Sample.secretAProject; Sample.secretBGroup];
     written := None;
     deleted := None |}.

Definition down : error := RemoteError "unavailable".

Definition projectDown : t :=
  {| project := Err down; user := user ok; linkedAccounts := linkedAccounts ok;
     remoteSource := remoteSource ok; gitSource := None; parsed := parsed ok;
     runs := None; owner := owner ok; secrets := secrets ok;
     written := None; deleted := None |}.

Definition badSignature : t :=
  {| project := project ok; user := user ok; linkedAccounts := linkedAccounts ok;
     remoteSource := remoteSource ok; gitSource := None;
     parsed := Err (RemoteError "signature mismatch");
     runs := None; owner := owner ok; secrets := secrets ok;
     written := None; deleted := None |}.

Definition runsDown : t :=
  {| project := project ok; user := user ok; linkedAccounts := linkedAccounts ok;
     remoteSource := remoteSource ok; gitSource := None; parsed := parsed ok;
     runs := Some down; owner := owner ok; secrets := secrets ok;
     written := None; deleted := None |}.

Definition ownershipDown : t :=
  {| project := project ok; user := user ok; linkedAccounts := linkedAccounts ok;
     remoteSource := remoteSource ok; gitSource := None; parsed := parsed ok;
     runs := None; owner := Err down; secrets := secrets ok;
     written := None; deleted := None |}.

Definition storeDown : t :=
  {| project := project ok; user := user ok; linkedAccounts := linkedAccounts ok;
     remoteSource := remoteSource ok; gitSource := None; parsed := parsed ok;
     runs := None; owner := owner ok; secrets := Err down;
     written := Some down; deleted := Some down |}.

End Scenario.

(** All the paths of a run: case on every answer, on the scan of the
    linked accounts and on the name rule. *)
Ltac paths w :=
  repeat first
    [ progress simpl
    | answer w
    | match goal with
      | |- context [findLinkedAccount ?i ?l] =>
          let E := fresh "Efind" in destruct (findLinkedAccount i l) eqn:E
      | |- context [match ?o with Some _ => _ | None => _ end] => is_var o; destruct o
      | |- context [if negb ?b then _ else _] => is_var b; destruct b
      end ].

(** ** Running programs *)

Lemma exec_bind {A B : Type} (w : World) (p : Prog A) (f : A -> Prog B) :
  exec w (bind p f) =
    match exec w p with
    | (Returned a, tr) => let '(o, tr') := exec w (f a) in (o, tr ++ tr')
    | (Panicked, tr) => (Panicked, tr)
    end.
Proof.
  induction p as [a | | X c k IH]; simpl.
  - destruct (exec w (f a)); reflexivity.
  - reflexivity.
  - rewrite IH. destruct (exec w (k (w X c))) as [[a |] tr]; [| reflexivity].
    destruct (exec w (f a)); reflexivity.
Qed.

(** A deferred call is the last call of the run, whatever the outcome. *)
Lemma exec_defer {R : Type} (w : World) (c : Call unit) (p : Prog R) :
  exec w (defer c p) = (fst (exec w p), snd (exec w p) ++ [Ev c (w _ c)]).
Proof.
  induction p as [r | | X c' k IH]; simpl; try reflexivity.
  rewrite IH. destruct (exec w (k (w X c'))); reflexivity.
Qed.

Lemma made_app (P : forall X : Type, Call X -> bool) (l1 l2 : list Event) :
  made P (l1 ++ l2) = made P l1 || made P l2.
Proof. unfold made. apply existsb_app. Qed.

(** [do] with a project id in the URL: the run of [doBody], then the
    close of the body. *)
Lemma do_with_projectid (w : World) (r : Request.t) :
  url.Get (url.Query (Request.URL r)) "projectid" <> "" ->
  exec w (do r) =
    (fst (exec w (doBody r (url.Get (url.Query (Request.URL r)) "projectid"))),
     snd (exec w (doBody r (url.Get (url.Query (Request.URL r)) "projectid")))
       ++ [Ev BodyClose (w _ BodyClose)]).
Proof.
  intros Hid. unfold do.
  destruct (String.eqb_spec (url.Get (url.Query (Request.URL r)) "projectid") "") as [E | _].
  - contradiction.
  - apply exec_defer.
Qed.

(** ** The webhook handler: a delivery that creates a run *)

(** The whole run of [do] when every lookup succeeds and the parser
    yields an event: the calls are made in the order of the source, the
    run creation gets the request built from what was fetched, and the
    body is closed last. *)
Lemma do_creates_run
    (w : World) (r : Request.t)
    (csProject : csapiProject.t) (user : User.t) (linkedAccounts : list LinkedAccount.t)
    (la : LinkedAccount.t) (rs : RemoteSource.t) (gitSource : GitSource)
    (webhookData : WebhookData.t) (failure : option error) :
  let projectID := url.Get (url.Query (Request.URL r)) "projectid" in
  let project := csapiProject.Project csProject in
  let req := newCreateRunRequest project rs gitSource webhookData in
  projectID <> "" ->
  w _ (GetProject projectID) = Ok csProject ->
  w _ (GetUserByLinkedAccount (Project.LinkedAccountID project)) = Ok user ->
  w _ (GetUserLinkedAccounts (User.ID user)) = Ok linkedAccounts ->
  findLinkedAccount (Project.LinkedAccountID project) linkedAccounts = Some la ->
  w _ (GetRemoteSource (LinkedAccount.RemoteSourceID la)) = Ok rs ->
  w _ (GetGitSource rs (User.Name user) la) = Ok gitSource ->
  w _ (ParseWebhook gitSource r (Project.WebhookSecret project)) = Ok (Some webhookData) ->
  w _ (CreateRuns req) = failure ->
  exec w (do r) =
    (Returned
       match failure with
       | Some err => Some (NewAPIErrorWrap ErrInternal err [WithAPIErrorMsg "failed to create run"])
       | None => None
       end,
     [Ev (GetProject projectID) (Ok csProject);
      Ev (GetUserByLinkedAccount (Project.LinkedAccountID project)) (Ok user);
      Ev (GetUserLinkedAccounts (User.ID user)) (Ok linkedAccounts);
      Ev (GetRemoteSource (LinkedAccount.RemoteSourceID la)) (Ok rs);
      Ev (GetGitSource rs (User.Name user) la) (Ok gitSource);
      Ev (ParseWebhook gitSource r (Project.WebhookSecret project)) (Ok (Some webhookData));
      Ev (CreateRuns req) failure;
      Ev BodyClose (w _ BodyClose)]).
Proof.
  intros projectID project req Hid Hp Hu Hl Hla Hrs Hgs Hparse Hrun.
  rewrite (do_with_projectid w r Hid). fold projectID.
  unfold doBody. simpl. rewrite Hp. simpl. fold project.
  rewrite Hu. simpl. rewrite Hl. simpl. rewrite Hla. simpl.
  rewrite Hrs. simpl. rewrite Hgs. simpl. rewrite Hparse. simpl.
  fold req. rewrite Hrun. destruct failure; reflexivity.
Qed.

(** ** The host-key policy *)

(** C1: the effective host-key-skip flag is the remote source's flag
    overridden in one direction by the project's flag.  Its table is
    (false, true) -> true, (true, false) -> true, (false, false) ->
    false, (true, true) -> true, which is the disjunction of the two
    flags; and this is the flag of the request handed to the run
    creation. *)
Theorem effective_skip_is_one_directional_override
    (rs : RemoteSource.t) (project : Project.t)
    (gitSource : GitSource) (webhookData : WebhookData.t) :
  effectiveSkipSSHHostKeyCheck rs project =
    match RemoteSource.SkipSSHHostKeyCheck rs, Project.SkipSSHHostKeyCheck project with
    | false, true => true
    | true, false => true
    | false, false => false
    | true, true => true
    end
  /\ effectiveSkipSSHHostKeyCheck rs project =
       RemoteSource.SkipSSHHostKeyCheck rs || Project.SkipSSHHostKeyCheck project
  /\ CreateRunRequest.SkipSSHHostKeyCheck (newCreateRunRequest project rs gitSource webhookData) =
       effectiveSkipSSHHostKeyCheck rs project.
Proof.
  unfold effectiveSkipSSHHostKeyCheck.
  destruct (RemoteSource.SkipSSHHostKeyCheck rs) eqn:Ers,
           (Project.SkipSSHHostKeyCheck project) eqn:Ep;
    simpl; unfold effectiveSkipSSHHostKeyCheck; rewrite ?Ers, ?Ep; auto.
Qed.

(** ** The webhook handler: rejections and skips *)


(** C4: a request whose URL has no [projectid] parameter, or an empty
    one, is answered with a BadRequest error before any remote call:
    the handler makes no call at all. *)
Theorem missing_projectid_is_bad_request (w : World) (r : Request.t) :
  (url.Query (Request.URL r) !! "projectid" = None
   \/ url.Query (Request.URL r) !! "projectid" = Some []
   \/ exists rest, url.Query (Request.URL r) !! "projectid" = Some ("" :: rest)) ->
  outcome w (do r) = Returned (Some (missingProjectIDError r))
  /\ trace w (do r) = []
  /\ made (@isRemoteCall) (trace w (do r)) = false.
Proof.
  intros H.
  assert (Hget : url.Get (url.Query (Request.URL r)) "projectid" = "").
  { unfold url.Get. destruct H as [-> | [-> | [rest ->]]]; reflexivity. }
  unfold outcome, trace, do. rewrite Hget. simpl. auto.
Qed.

Lemma missing_projectid_is_bad_request_witness :
  url.Query (Request.URL Sample.requestNoProjectID) !! "projectid" = None
  /\ outcome (Sample.world true [] (Ok None)) (do Sample.requestNoProjectID)
      = Returned (Some (missingProjectIDError Sample.requestNoProjectID))
  /\ trace (Sample.world true [] (Ok None)) (do Sample.requestNoProjectID) = [].
Proof.
  split; [reflexivity |].
  destruct (missing_projectid_is_bad_request (Sample.world true [] (Ok None))
              Sample.requestNoProjectID) as (Ho & Ht & _).
  - left. reflexivity.
  - split; assumption.
Defined.


(** The run of [doBody] when the parser is reached and answers no event:
    the skip is logged and the handler returns nil. *)
Lemma doBody_skip (w : World) (r : Request.t) (projectID : string) :
  existsb parserReturnedNil (snd (exec w (doBody r projectID))) = true ->
  fst (exec w (doBody r projectID)) = Returned None
  /\ made (@isCreateRuns) (snd (exec w (doBody r projectID))) = false.
Proof.
  unfold doBody. simpl.
  answer w; [| discriminate].
  answer w; [| discriminate].
  answer w; [| discriminate].
  destruct (findLinkedAccount _ _) as [la |]; simpl; [| discriminate].
  answer w; [| discriminate].
  answer w; [| discriminate].
  destruct (w _ (ParseWebhook _ _ _)) as [[webhookData |] | err] eqn:Eparse; simpl.
  - destruct (w _ (CreateRuns _)); simpl; discriminate.
  - intros _. split; reflexivity.
  - discriminate.
Qed.

(** C3: when the parser of the provider returns no event and no error,
    the handler returns without an error and never calls the run
    creation. *)
Theorem nil_event_skips_run_creation (w : World) (r : Request.t) :
  existsb parserReturnedNil (trace w (do r)) = true ->
  outcome w (do r) = Returned None
  /\ made (@isCreateRuns) (trace w (do r)) = false.
Proof.
  unfold outcome, trace.
  destruct (String.eqb_spec (url.Get (url.Query (Request.URL r)) "projectid") "") as [E | NE].
  - unfold do. rewrite E. simpl. discriminate.
  - rewrite (do_with_projectid w r NE). simpl.
    rewrite existsb_app, made_app. simpl. rewrite !orb_false_r.
    apply doBody_skip.
Qed.

Lemma nil_event_skips_run_creation_witness :
  existsb parserReturnedNil
    (trace (Sample.world true [Sample.la0; Sample.la1] (Ok None)) (do Sample.request)) = true
  /\ outcome (Sample.world true [Sample.la0; Sample.la1] (Ok None)) (do Sample.request)
     = Returned None.
Proof.
  split; [reflexivity |].
  apply (nil_event_skips_run_creation
           (Sample.world true [Sample.la0; Sample.la1] (Ok None)) Sample.request).
  reflexivity.
Defined.

(** ** The webhook handler: the linked account of the project *)

Lemma findLinkedAccount_none (linkedAccountID : string) (linkedAccounts : list LinkedAccount.t) :
  (forall la, In la linkedAccounts -> LinkedAccount.ID la <> linkedAccountID) ->
  findLinkedAccount linkedAccountID linkedAccounts = None.
Proof.
  intros H. unfold findLinkedAccount.
  induction linkedAccounts as [| v l IH]; simpl; [reflexivity |].
  destruct (String.eqb_spec (LinkedAccount.ID v) linkedAccountID) as [E | _].
  - exfalso. apply (H v); [left; reflexivity | exact E].
  - apply IH. intros la Hin. apply H. right. exact Hin.
Qed.


(** C7: when the linked accounts of the owning user are fetched and none
    has the id the project refers to, the handler fails with an Internal
    error whose message is built from that id and the user's name; the
    error is not a BadRequest one, and no later lookup is made. *)
Theorem missing_linked_account_is_internal_error
    (w : World) (r : Request.t)
    (csProject : csapiProject.t) (user : User.t) (linkedAccounts : list LinkedAccount.t) :
  let projectID := url.Get (url.Query (Request.URL r)) "projectid" in
  let project := csapiProject.Project csProject in
  projectID <> "" ->
  w _ (GetProject projectID) = Ok csProject ->
  w _ (GetUserByLinkedAccount (Project.LinkedAccountID project)) = Ok user ->
  w _ (GetUserLinkedAccounts (User.ID user)) = Ok linkedAccounts ->
  (forall la, In la linkedAccounts -> LinkedAccount.ID la <> Project.LinkedAccountID project) ->
  exec w (do r) =
    (Returned (Some (missingLinkedAccountError project user)),
     [Ev (GetProject projectID) (Ok csProject);
      Ev (GetUserByLinkedAccount (Project.LinkedAccountID project)) (Ok user);
      Ev (GetUserLinkedAccounts (User.ID user)) (Ok linkedAccounts);
      Ev BodyClose (w _ BodyClose)])
  /\ (forall opts, missingLinkedAccountError project user <> NewAPIError ErrBadRequest opts)
  /\ In (Project.LinkedAccountID project) [Project.LinkedAccountID project; User.Name user]
  /\ In (User.Name user) [Project.LinkedAccountID project; User.Name user].
Proof.
  intros projectID project Hid Hp Hu Hl Hnone.
  split; [| split; [| split]].
  - rewrite (do_with_projectid w r Hid). fold projectID.
    unfold doBody. simpl. rewrite Hp. simpl. fold project.
    rewrite Hu. simpl. rewrite Hl. simpl.
    rewrite (findLinkedAccount_none _ _ Hnone). reflexivity.
  - intros opts. unfold missingLinkedAccountError. discriminate.
  - left. reflexivity.
  - right. left. reflexivity.
Qed.

Lemma missing_linked_account_is_internal_error_witness :
  outcome (Sample.world true [Sample.la0] (Ok None)) (do Sample.request)
  = Returned (Some (NewAPIError ErrInternal
      [WithAPIErrorMsgf "linked account %q for user %q doesn't exist" ["la1"; "alice"]])).
Proof.
  unfold outcome.
  rewrite (proj1 (missing_linked_account_is_internal_error
             (Sample.world true [Sample.la0] (Ok None)) Sample.request
             {| csapiProject.Project := Sample.project |} Sample.user [Sample.la0]
             ltac:(vm_compute; discriminate) eq_refl eq_refl eq_refl
             ltac:(intros la [<- | []]; vm_compute; discriminate))).
  reflexivity.
Defined.

(** ** The webhook handler: the request body *)

(** Past the check of [projectid] the body is closed on every path, as
    the last call of the run, also when the run panics. *)
Lemma body_closed_with_projectid (w : World) (r : Request.t) :
  url.Get (url.Query (Request.URL r)) "projectid" <> "" ->
  exists tr, trace w (do r) = tr ++ [Ev BodyClose (w _ BodyClose)]
             /\ made (@isBodyClose) (trace w (do r)) = true.
Proof.
  intros Hid. unfold trace. rewrite (do_with_projectid w r Hid). simpl.
  eexists. split; [reflexivity |].
  rewrite made_app. simpl. apply orb_true_r.
Qed.

(** C6: the claim that the body is closed on every exit path fails on
    the rejection of a request without [projectid]: the handler returns
    the BadRequest error before [defer r.Body.Close()] is reached, and
    the run makes no call, so the body is left open. *)
Theorem body_not_closed_on_missing_projectid (w : World) :
  outcome w (do Sample.requestNoProjectID)
    = Returned (Some (missingProjectIDError Sample.requestNoProjectID))
  /\ made (@isBodyClose) (trace w (do Sample.requestNoProjectID)) = false.
Proof. split; reflexivity. Qed.

(** ** The secret actions: the ownership guard *)


Section SecretGuards.

Variable ValidateName : string -> bool.
Variable w : World.

(** C2: when the ownership check answers false without an error,
    create, update and delete return a Forbidden error, and the one
    call of the run is the ownership check: no create, update or
    delete call reaches the store. *)
Theorem non_owner_is_forbidden
    (creq : CreateSecretRequest.t) (ureq : UpdateSecretRequest.t)
    (parentType : ObjectKind) (parentRef name : string) :
  w _ (IsAuthUserVariableOwner (CreateSecretRequest.ParentType creq)
                               (CreateSecretRequest.ParentRef creq)) = Ok false ->
  w _ (IsAuthUserVariableOwner (UpdateSecretRequest.ParentType ureq)
                               (UpdateSecretRequest.ParentRef ureq)) = Ok false ->
  w _ (IsAuthUserVariableOwner parentType parentRef) = Ok false ->
  (outcome w (CreateSecret ValidateName creq) = Returned (None, Some notAuthorizedError)
   /\ made (@isStoreMutation) (trace w (CreateSecret ValidateName creq)) = false)
  /\ (outcome w (UpdateSecret ValidateName ureq) = Returned (None, Some notAuthorizedError)
      /\ made (@isStoreMutation) (trace w (UpdateSecret ValidateName ureq)) = false)
  /\ (outcome w (DeleteSecret parentType parentRef name) = Returned (Some notAuthorizedError)
      /\ made (@isStoreMutation) (trace w (DeleteSecret parentType parentRef name)) = false).
Proof.
  intros Hc Hu Hd. unfold outcome, trace.
  repeat split.
  all: unfold CreateSecret, UpdateSecret, DeleteSecret; simpl;
    rewrite ?Hc, ?Hu, ?Hd; reflexivity.
Qed.

(** ** The secret actions: the name rule *)


Lemma create_rejects_invalid_name (req : CreateSecretRequest.t) :
  w _ (IsAuthUserVariableOwner (CreateSecretRequest.ParentType req)
                               (CreateSecretRequest.ParentRef req)) = Ok true ->
  ValidateName (CreateSecretRequest.Name req) = false ->
  exec w (CreateSecret ValidateName req) =
    (Returned (None, Some (invalidSecretNameError (CreateSecretRequest.Name req))),
     [Ev (IsAuthUserVariableOwner (CreateSecretRequest.ParentType req)
                                  (CreateSecretRequest.ParentRef req)) (Ok true)]).
Proof.
  intros Ho Hv. unfold CreateSecret. simpl. rewrite Ho. simpl. rewrite Hv. reflexivity.
Qed.

Lemma update_rejects_invalid_name (req : UpdateSecretRequest.t) :
  w _ (IsAuthUserVariableOwner (UpdateSecretRequest.ParentType req)
                               (UpdateSecretRequest.ParentRef req)) = Ok true ->
  ValidateName (UpdateSecretRequest.Name req) = false ->
  exec w (UpdateSecret ValidateName req) =
    (Returned (None, Some (invalidSecretNameError (UpdateSecretRequest.Name req))),
     [Ev (IsAuthUserVariableOwner (UpdateSecretRequest.ParentType req)
                                  (UpdateSecretRequest.ParentRef req)) (Ok true)]).
Proof.
  intros Ho Hv. unfold UpdateSecret. simpl. rewrite Ho. simpl. rewrite Hv. reflexivity.
Qed.

Lemma create_accepts_valid_name (req : CreateSecretRequest.t) (name : string) :
  w _ (IsAuthUserVariableOwner (CreateSecretRequest.ParentType req)
                               (CreateSecretRequest.ParentRef req)) = Ok true ->
  ValidateName (CreateSecretRequest.Name req) = true ->
  outcome w (CreateSecret ValidateName req) <> Returned (None, Some (invalidSecretNameError name)).
Proof.
  intros Ho Hv. unfold outcome, CreateSecret. simpl. rewrite Ho. simpl. rewrite Hv. simpl.
  destruct (CreateSecretRequest.ParentType req); simpl.
  - destruct (w _ (CreateProjectGroupSecret _ _)); simpl; discriminate.
  - destruct (w _ (CreateProjectSecret _ _)); simpl; discriminate.
  - discriminate.
Qed.

Lemma update_accepts_valid_name (req : UpdateSecretRequest.t) (name : string) :
  w _ (IsAuthUserVariableOwner (UpdateSecretRequest.ParentType req)
                               (UpdateSecretRequest.ParentRef req)) = Ok true ->
  ValidateName (UpdateSecretRequest.Name req) = true ->
  outcome w (UpdateSecret ValidateName req) <> Returned (None, Some (invalidSecretNameError name)).
Proof.
  intros Ho Hv. unfold outcome, UpdateSecret. simpl. rewrite Ho. simpl. rewrite Hv. simpl.
  destruct (UpdateSecretRequest.ParentType req); simpl.
  - destruct (w _ (UpdateProjectGroupSecret _ _ _)); simpl; discriminate.
  - destruct (w _ (UpdateProjectSecret _ _ _)); simpl; discriminate.
  - discriminate.
Qed.

(** C5: for a variable owner, create and update reject a name exactly
    when the name rule does.  A name that fails it is answered with
    the BadRequest error that carries the invalid-secret-name code,
    and no call reaches the store; a name that passes it is never
    answered with that error. *)
Theorem invalid_name_is_rejected_before_store
    (creq : CreateSecretRequest.t) (ureq : UpdateSecretRequest.t) :
  w _ (IsAuthUserVariableOwner (CreateSecretRequest.ParentType creq)
                               (CreateSecretRequest.ParentRef creq)) = Ok true ->
  w _ (IsAuthUserVariableOwner (UpdateSecretRequest.ParentType ureq)
                               (UpdateSecretRequest.ParentRef ureq)) = Ok true ->
  (if ValidateName (CreateSecretRequest.Name creq)
   then forall name,
          outcome w (CreateSecret ValidateName creq)
            <> Returned (None, Some (invalidSecretNameError name))
   else outcome w (CreateSecret ValidateName creq)
          = Returned (None, Some (invalidSecretNameError (CreateSecretRequest.Name creq)))
        /\ made (@isStoreCall) (trace w (CreateSecret ValidateName creq)) = false)
  /\ (if ValidateName (UpdateSecretRequest.Name ureq)
      then forall name,
             outcome w (UpdateSecret ValidateName ureq)
               <> Returned (None, Some (invalidSecretNameError name))
      else outcome w (UpdateSecret ValidateName ureq)
             = Returned (None, Some (invalidSecretNameError (UpdateSecretRequest.Name ureq)))
           /\ made (@isStoreCall) (trace w (UpdateSecret ValidateName ureq)) = false)
  /\ (forall name, exists opts,
        invalidSecretNameError name = NewAPIError ErrBadRequest opts
        /\ In InvalidSecretName opts).
Proof.
  intros Hc Hu. split; [| split].
  - destruct (ValidateName (CreateSecretRequest.Name creq)) eqn:Hv.
    + intros name. apply create_accepts_valid_name; assumption.
    + unfold outcome, trace. rewrite (create_rejects_invalid_name creq Hc Hv).
      split; reflexivity.
  - destruct (ValidateName (UpdateSecretRequest.Name ureq)) eqn:Hv.
    + intros name. apply update_accepts_valid_name; assumption.
    + unfold outcome, trace. rewrite (update_rejects_invalid_name ureq Hu Hv).
      split; reflexivity.
  - intros name. eexists. split; [reflexivity |]. right. left. reflexivity.
Qed.

End SecretGuards.

Lemma non_owner_is_forbidden_witness :
  outcome (Sample.world false [] (Ok None))
    (CreateSecret Sample.validateName (Sample.createRequest "tok" ObjectKindProject))
  = Returned (None, Some notAuthorizedError)
  /\ outcome (Sample.world false [] (Ok None))
       (UpdateSecret Sample.validateName (Sample.updateRequest "tok" ObjectKindProjectGroup))
     = Returned (None, Some notAuthorizedError)
  /\ outcome (Sample.world false [] (Ok None)) (DeleteSecret ObjectKindProject "ref" "tok")
     = Returned (Some notAuthorizedError).
Proof.
  destruct (non_owner_is_forbidden Sample.validateName (Sample.world false [] (Ok None))
              (Sample.createRequest "tok" ObjectKindProject)
              (Sample.updateRequest "tok" ObjectKindProjectGroup)
              ObjectKindProject "ref" "tok" eq_refl eq_refl eq_refl)
    as ((Hc & _) & (Hu & _) & (Hd & _)).
  split; [exact Hc | split; [exact Hu | exact Hd]].
Defined.

Lemma invalid_name_is_rejected_before_store_witness :
  Sample.validateName "t k" = false
  /\ Sample.validateName "tok" = true
  /\ outcome (Sample.world true [] (Ok None))
       (CreateSecret Sample.validateName (Sample.createRequest "t k" ObjectKindProject))
     = Returned (None, Some (invalidSecretNameError "t k"))
  /\ outcome (Sample.world true [] (Ok None))
       (UpdateSecret Sample.validateName (Sample.updateRequest "tok" ObjectKindProject))
     <> Returned (None, Some (invalidSecretNameError "tok")).
Proof.
  split; [reflexivity | split; [reflexivity |]].
  destruct (invalid_name_is_rejected_before_store Sample.validateName
              (Sample.world true [] (Ok None))
              (Sample.createRequest "t k" ObjectKindProject)
              (Sample.updateRequest "tok" ObjectKindProject) eq_refl eq_refl)
    as (Hc & Hu & _).
  simpl in Hc, Hu.
  split; [exact (proj1 Hc) | exact (Hu "tok")].
Defined.

(** ** The shadowing filter *)

Lemma overridden_false_iff (secrets : list Secret.t) (s : Secret.t) :
  overridden secrets s = false <->
  (forall t, In t secrets -> Secret.Name t = Secret.Name s -> Secret.Level t <= Secret.Level s).
Proof.
  unfold overridden. induction secrets as [| a l IH]; simpl.
  - split; [intros _ t [] | reflexivity].
  - rewrite orb_false_iff, IH, andb_false_iff. split.
    + intros [Ha Hl] t [<- | Hin] Hname.
      * destruct Ha as [Ha | Ha].
        -- apply String.eqb_neq in Ha. contradiction.
        -- apply Nat.ltb_ge in Ha. exact Ha.
      * apply Hl; assumption.
    + intros H. split.
      * destruct (String.eqb_spec (Secret.Name a) (Secret.Name s)) as [E | NE].
        -- right. apply Nat.ltb_ge. apply H; [left; reflexivity | exact E].
        -- left. reflexivity.
      * intros t Hin. apply H. right. exact Hin.
Qed.

(** The filter keeps a secret exactly when no secret of the same name
    sits at a deeper level. *)
Lemma FilterOverriddenSecrets_In (secrets : list Secret.t) (s : Secret.t) :
  In s (FilterOverriddenSecrets secrets) <->
  In s secrets
  /\ (forall t, In t secrets -> Secret.Name t = Secret.Name s -> Secret.Level t <= Secret.Level s).
Proof.
  unfold FilterOverriddenSecrets. rewrite List.filter_In, negb_true_iff, overridden_false_iff.
  reflexivity.
Qed.

(** Among the secrets of a name one is deepest. *)
Lemma deepest_exists (secrets : list Secret.t) (s : Secret.t) :
  In s secrets ->
  exists t, In t secrets /\ Secret.Name t = Secret.Name s
            /\ (forall u, In u secrets -> Secret.Name u = Secret.Name s ->
                          Secret.Level u <= Secret.Level t).
Proof.
  revert s. induction secrets as [| a l IH]; intros s Hin; [destruct Hin |].
  assert (Hrest :
    (exists t, In t l /\ Secret.Name t = Secret.Name s
               /\ (forall u, In u l -> Secret.Name u = Secret.Name s ->
                             Secret.Level u <= Secret.Level t))
    \/ (forall u, In u l -> Secret.Name u <> Secret.Name s)).
  { destruct (existsb (fun u => String.eqb (Secret.Name u) (Secret.Name s)) l) eqn:Ex.
    - left. apply existsb_exists in Ex as (u & Hu & Hname).
      apply String.eqb_eq in Hname.
      destruct (IH u Hu) as (t & Ht & Htn & Hmax).
      exists t. split; [exact Ht |]. split; [congruence |].
      intros v Hv Hvn. apply Hmax; congruence.
    - right. intros u Hu Hname.
      assert (existsb (fun u => String.eqb (Secret.Name u) (Secret.Name s)) l = true) as Habs.
      { apply existsb_exists. exists u. split; [exact Hu | apply String.eqb_eq; exact Hname]. }
      congruence. }
  destruct Hrest as [(t & Ht & Htn & Hmax) | Hnone].
  - destruct (String.eqb_spec (Secret.Name a) (Secret.Name s)) as [Ea | NEa].
    + destruct (le_lt_dec (Secret.Level a) (Secret.Level t)) as [Hle | Hgt].
      * exists t. split; [right; exact Ht |]. split; [exact Htn |].
        intros u [<- | Hu] Hun; [exact Hle | apply Hmax; assumption].
      * exists a. split; [left; reflexivity |]. split; [exact Ea |].
        intros u [<- | Hu] Hun; [lia |].
        specialize (Hmax u Hu Hun). lia.
    + exists t. split; [right; exact Ht |]. split; [exact Htn |].
      intros u [<- | Hu] Hun; [contradiction | apply Hmax; assumption].
  - destruct Hin as [-> | Hin]; [| exfalso; apply (Hnone s Hin); reflexivity].
    exists s. split; [left; reflexivity |]. split; [reflexivity |].
    intros u [<- | Hu] Hun; [lia | exfalso; apply (Hnone u Hu); exact Hun].
Qed.

(** Every name of the input is still there after the filter. *)
Lemma FilterOverriddenSecrets_keeps_names (secrets : list Secret.t) (s : Secret.t) :
  In s secrets ->
  exists t, In t (FilterOverriddenSecrets secrets) /\ Secret.Name t = Secret.Name s.
Proof.
  intros Hin. destruct (deepest_exists secrets s Hin) as (t & Ht & Htn & Hmax).
  exists t. split; [| exact Htn].
  apply FilterOverriddenSecrets_In. split; [exact Ht |].
  intros u Hu Hun. apply Hmax; congruence.
Qed.

(** When no two secrets of the input share name and level (a name is
    unique within its parent scope), each name is kept once. *)
Lemma filter_names_NoDup (all secrets : list Secret.t) :
  (forall s, In s secrets -> In s all) ->
  NoDup (List.map (fun s => (Secret.Name s, Secret.Level s)) secrets) ->
  NoDup (List.map Secret.Name (List.filter (fun s => negb (overridden all s)) secrets)).
Proof.
  induction secrets as [| a l IH]; intros Hsub Hnd; simpl; [constructor |].
  simpl in Hnd. apply NoDup_cons_iff in Hnd as [Hnotin Hnd].
  assert (IHl := IH (fun s Hs => Hsub s (or_intror Hs)) Hnd).
  destruct (overridden all a) eqn:Ha; simpl; [exact IHl |].
  apply NoDup_cons_iff. split; [| exact IHl].
  intros Hname. apply in_map_iff in Hname as (t & Htn & Ht).
  apply List.filter_In in Ht as [Htl Htkeep].
  apply negb_true_iff in Htkeep.
  rewrite overridden_false_iff in Ha, Htkeep.
  assert (Hat : Secret.Level t <= Secret.Level a).
  { apply Ha; [apply Hsub; right; exact Htl | exact Htn]. }
  assert (Hta : Secret.Level a <= Secret.Level t).
  { apply Htkeep; [apply Hsub; left; reflexivity | congruence]. }
  apply Hnotin. apply in_map_iff. exists t. split; [| exact Htl].
  f_equal; [exact Htn | lia].
Qed.

Lemma FilterOverriddenSecrets_NoDup (secrets : list Secret.t) :
  NoDup (List.map (fun s => (Secret.Name s, Secret.Level s)) secrets) ->
  NoDup (List.map Secret.Name (FilterOverriddenSecrets secrets)).
Proof. apply filter_names_NoDup. auto. Qed.

(** ** Reading secrets *)

(** C8: with the remove-overridden flag set, [GetSecrets] returns the
    store's secrets filtered so that a secret stays exactly when no
    secret of the same name sits at a deeper level: every name of the
    store's result is still there, with its deepest secret only (once,
    when a name occurs at most once per level), and the shallower ones
    are dropped.  On ("A", project group), ("A", project), ("B", project
    group) the result is ("A", project), ("B", project group). *)
Theorem remove_overridden_keeps_deepest
    (w : World) (req : GetSecretsRequest.t) (secrets : list Secret.t) :
  GetSecretsRequest.RemoveOverridden req = true ->
  (GetSecretsRequest.ParentType req = ObjectKindProjectGroup
   /\ w _ (GetProjectGroupSecrets (GetSecretsRequest.ParentRef req) (GetSecretsRequest.Tree req))
      = Ok secrets)
  \/ (GetSecretsRequest.ParentType req = ObjectKindProject
      /\ w _ (GetProjectSecrets (GetSecretsRequest.ParentRef req) (GetSecretsRequest.Tree req))
         = Ok secrets) ->
  exists returned,
    outcome w (GetSecrets req) = Returned (returned, None)
    /\ returned = FilterOverriddenSecrets secrets
    /\ (forall s, In s returned <->
          In s secrets
          /\ (forall t, In t secrets -> Secret.Name t = Secret.Name s ->
                        Secret.Level t <= Secret.Level s))
    /\ (forall s, In s secrets -> exists t, In t returned /\ Secret.Name t = Secret.Name s)
    /\ (NoDup (List.map (fun s => (Secret.Name s, Secret.Level s)) secrets) ->
        NoDup (List.map Secret.Name returned))
    /\ FilterOverriddenSecrets [Sample.secretAGroup; Sample.secretAProject; Sample.secretBGroup]
       = [Sample.secretAProject; Sample.secretBGroup].
Proof.
  intros Hflag Hstore.
  exists (FilterOverriddenSecrets secrets).
  split; [| split; [reflexivity | split; [| split; [| split]]]].
  - unfold outcome, GetSecrets.
    destruct Hstore as [[-> Hw] | [-> Hw]]; simpl; rewrite Hw; simpl; rewrite Hflag; reflexivity.
  - apply FilterOverriddenSecrets_In.
  - apply FilterOverriddenSecrets_keeps_names.
  - apply FilterOverriddenSecrets_NoDup.
  - reflexivity.
Qed.

Lemma remove_overridden_keeps_deepest_witness :
  outcome (Sample.world true [] (Ok None))
    (GetSecrets {| GetSecretsRequest.ParentType := ObjectKindProject;
                   GetSecretsRequest.ParentRef := "p1";
                   GetSecretsRequest.Tree := true;
                   GetSecretsRequest.RemoveOverridden := true |})
  = Returned ([Sample.secretAProject; Sample.secretBGroup], None).
Proof.
  destruct (remove_overridden_keeps_deepest (Sample.world true [] (Ok None))
              {| GetSecretsRequest.ParentType := ObjectKindProject;
                 GetSecretsRequest.ParentRef := "p1";
                 GetSecretsRequest.Tree := true;
                 GetSecretsRequest.RemoveOverridden := true |}
              [Sample.secretAGroup; Sample.secretAProject; Sample.secretBGroup]
              eq_refl (or_intror (conj eq_refl eq_refl)))
    as (returned & Hout & Hret & _).
  rewrite Hout, Hret. reflexivity.
Defined.

(** ** The secret actions: a parent that is neither kind *)

(** What holds of every run: a secret returned without an error is not
    nil, since the log line before the return reads it. *)
Lemma create_returns_secret (ValidateName : string -> bool) (w : World)
    (req : CreateSecretRequest.t) (rs : option Secret.t) :
  outcome w (CreateSecret ValidateName req) = Returned (rs, None) -> rs <> None.
Proof.
  unfold outcome, CreateSecret. simpl.
  destruct (w _ (IsAuthUserVariableOwner _ _)) as [[|] | e]; simpl; try discriminate.
  destruct (ValidateName _); simpl; try discriminate.
  destruct (CreateSecretRequest.ParentType req); simpl.
  - destruct (w _ (CreateProjectGroupSecret _ _)); simpl; [| discriminate].
    intros [= <-]. discriminate.
  - destruct (w _ (CreateProjectSecret _ _)); simpl; [| discriminate].
    intros [= <-]. discriminate.
  - discriminate.
Qed.

(** For a variable owner and a name that passes the rule, a parent kind
    outside the two cases of the switch makes the action panic. *)
Lemma create_other_kind_panics (ValidateName : string -> bool) (w : World)
    (req : CreateSecretRequest.t) (kind : string) :
  CreateSecretRequest.ParentType req = ObjectKindOther kind ->
  w _ (IsAuthUserVariableOwner (CreateSecretRequest.ParentType req)
                               (CreateSecretRequest.ParentRef req)) = Ok true ->
  ValidateName (CreateSecretRequest.Name req) = true ->
  outcome w (CreateSecret ValidateName req) = Panicked.
Proof.
  intros Hk Ho Hv. unfold outcome, CreateSecret. simpl. rewrite Ho. simpl.
  rewrite Hv. simpl. rewrite Hk. reflexivity.
Qed.

Lemma update_other_kind_panics (ValidateName : string -> bool) (w : World)
    (req : UpdateSecretRequest.t) (kind : string) :
  UpdateSecretRequest.ParentType req = ObjectKindOther kind ->
  w _ (IsAuthUserVariableOwner (UpdateSecretRequest.ParentType req)
                               (UpdateSecretRequest.ParentRef req)) = Ok true ->
  ValidateName (UpdateSecretRequest.Name req) = true ->
  outcome w (UpdateSecret ValidateName req) = Panicked.
Proof.
  intros Hk Ho Hv. unfold outcome, UpdateSecret. simpl. rewrite Ho. simpl.
  rewrite Hv. simpl. rewrite Hk. reflexivity.
Qed.

(** C9: the claim that the success path never dereferences a nil result
    fails when the parent type is neither project nor project group:
    for a variable owner and the name "tok", no case of the switch runs,
    [rs] and [err] are both nil, and the log line [rs.Name] panics, in
    create and in update, after the ownership check alone. *)
Theorem create_update_other_kind_nil_dereference :
  exec (Sample.world true [] (Ok None))
    (CreateSecret Sample.validateName (Sample.createRequest "tok" (ObjectKindOther "")))
  = (Panicked, [Ev (IsAuthUserVariableOwner (ObjectKindOther "") "ref") (Ok true)])
  /\ exec (Sample.world true [] (Ok None))
       (UpdateSecret Sample.validateName (Sample.updateRequest "tok" (ObjectKindOther "")))
     = (Panicked, [Ev (IsAuthUserVariableOwner (ObjectKindOther "") "ref") (Ok true)]).
Proof. split; reflexivity. Qed.

(** C10: for a variable owner, deleting under a parent that is neither a
    project nor a project group returns no error and makes no call on
    the store: the ownership check is the only call of the run. *)
Theorem delete_other_kind_is_silent_success
    (w : World) (parentType : ObjectKind) (parentRef name : string) :
  parentType <> ObjectKindProjectGroup ->
  parentType <> ObjectKindProject ->
  w _ (IsAuthUserVariableOwner parentType parentRef) = Ok true ->
  outcome w (DeleteSecret parentType parentRef name) = Returned None
  /\ trace w (DeleteSecret parentType parentRef name)
     = [Ev (IsAuthUserVariableOwner parentType parentRef) (Ok true)]
  /\ made (@isStoreCall) (trace w (DeleteSecret parentType parentRef name)) = false.
Proof.
  intros Hpg Hp Ho. unfold outcome, trace, DeleteSecret. simpl. rewrite Ho. simpl.
  destruct parentType as [| | kind]; [contradiction | contradiction |].
  simpl. auto.
Qed.

Lemma delete_other_kind_is_silent_success_witness :
  outcome (Sample.world true [] (Ok None)) (DeleteSecret (ObjectKindOther "user") "ref" "tok")
  = Returned None
  /\ made (@isStoreCall)
       (trace (Sample.world true [] (Ok None)) (DeleteSecret (ObjectKindOther "user") "ref" "tok"))
     = false.
Proof.
  destruct (delete_other_kind_is_silent_success (Sample.world true [] (Ok None))
              (ObjectKindOther "user") "ref" "tok"
              ltac:(discriminate) ltac:(discriminate) eq_refl) as (Ho & _ & Hm).
  split; assumption.
Defined.


(** * Further properties of the handlers *)

(** ** The webhook handler: how a delivery ends *)

Lemma do_paths (w : World) (r : Request.t) (P : Outcome (option error) * list Event -> Prop) :
  (url.Get (url.Query (Request.URL r)) "projectid" = "" ->
   P (Returned (Some (missingProjectIDError r)), [])) ->
  (url.Get (url.Query (Request.URL r)) "projectid" <> "" ->
   P (fst (exec w (doBody r (url.Get (url.Query (Request.URL r)) "projectid"))),
      snd (exec w (doBody r (url.Get (url.Query (Request.URL r)) "projectid")))
        ++ [Ev BodyClose (w _ BodyClose)])) ->
  P (exec w (do r)).
Proof.
  intros Hmissing Hpresent.
  destruct (String.eqb_spec (url.Get (url.Query (Request.URL r)) "projectid") "") as [E | NE].
  - unfold do. rewrite E. apply Hmissing. exact E.
  - rewrite (do_with_projectid w r NE). apply Hpresent. exact NE.
Qed.

Lemma count_app (P : forall X : Type, Call X -> bool) (l1 l2 : list Event) :
  count P (l1 ++ l2) = count P l1 + count P l2.
Proof. unfold count. rewrite List.filter_app, List.length_app. reflexivity. Qed.

Lemma doBody_never_closes (w : World) (r : Request.t) (projectID : string) :
  count (@isBodyClose) (snd (exec w (doBody r projectID))) = 0.
Proof. unfold doBody. paths w; reflexivity. Qed.

(** X1: for a request that carries a project id, whatever the
    collaborators answer, the body is closed exactly once and the close
    is the last call of the run. *)
Theorem body_closed_once_and_last (w : World) (r : Request.t) :
  url.Get (url.Query (Request.URL r)) "projectid" <> "" ->
  count (@isBodyClose) (trace w (do r)) = 1
  /\ exists calls, trace w (do r) = calls ++ [Ev BodyClose (w _ BodyClose)]
                   /\ count (@isBodyClose) calls = 0.
Proof.
  intros Hid. unfold trace. rewrite (do_with_projectid w r Hid). cbn [fst snd]. split.
  - rewrite count_app, doBody_never_closes. reflexivity.
  - eexists. split; [reflexivity | apply doBody_never_closes].
Qed.

Lemma body_closed_once_and_last_witness :
  count (@isBodyClose) (trace (Scenario.world Scenario.badSignature) (do Sample.request)) = 1
  /\ count (@isBodyClose) (trace (Scenario.world Scenario.projectDown) (do Sample.request)) = 1.
Proof.
  split.
  - apply (body_closed_once_and_last (Scenario.world Scenario.badSignature) Sample.request).
    vm_compute. discriminate.
  - apply (body_closed_once_and_last (Scenario.world Scenario.projectDown) Sample.request).
    vm_compute. discriminate.
Defined.


(** X3: [do] stops at the first collaborator that fails: after a call
    answered with an error, the only call left is the close of the
    body. *)
Theorem do_stops_at_first_failure (w : World) (r : Request.t) (rest : list Event) :
  afterFirstFailure (trace w (do r)) = Some rest ->
  rest = [Ev BodyClose (w _ BodyClose)].
Proof.
  unfold trace. pattern (exec w (do r)). apply do_paths; intros Hid; simpl.
  - discriminate.
  - unfold doBody. paths w; intros H; first [discriminate H | injection H as <-; reflexivity].
Qed.

Lemma do_stops_at_first_failure_witness :
  afterFirstFailure (trace (Scenario.world Scenario.runsDown) (do Sample.request))
  = Some [Ev BodyClose tt]
  /\ [Ev BodyClose tt] = [Ev BodyClose (Scenario.world Scenario.runsDown _ BodyClose)].
Proof.
  split; [reflexivity |].
  apply (do_stops_at_first_failure (Scenario.world Scenario.runsDown) Sample.request).
  reflexivity.
Defined.

(** ** The webhook handler: which error for which failure *)

(** X4: when a lookup on the store fails (project, user, linked
    accounts or remote source), [do] returns the store's error passed
    through [APIErrorFromRemoteError], so that its remote classification
    is kept, and neither makes the git source, nor parses the payload,
    nor creates a run. *)
Theorem lookup_failure_keeps_remote_error (w : World) (r : Request.t) (err : error) :
  In err (failures (@isLookup) (trace w (do r))) ->
  (exists opts, outcome w (do r) = Returned (Some (APIErrorFromRemoteError err opts)))
  /\ made (@isGetGitSource) (trace w (do r)) = false
  /\ made (@isParseWebhook) (trace w (do r)) = false
  /\ made (@isCreateRuns) (trace w (do r)) = false.
Proof.
  unfold outcome, trace. pattern (exec w (do r)). apply do_paths; intros Hid; simpl.
  - intros [].
  - unfold doBody. paths w; intros H; simpl in H;
      try contradiction;
      destruct H as [<- | []];
      (split; [eexists; reflexivity | repeat split]).
Qed.

Lemma lookup_failure_keeps_remote_error_witness :
  In Scenario.down
     (failures (@isLookup) (trace (Scenario.world Scenario.projectDown) (do Sample.request)))
  /\ (exists opts, outcome (Scenario.world Scenario.projectDown) (do Sample.request)
                   = Returned (Some (APIErrorFromRemoteError Scenario.down opts))).
Proof.
  split; [left; reflexivity |].
  apply (lookup_failure_keeps_remote_error (Scenario.world Scenario.projectDown)
           Sample.request Scenario.down).
  left. reflexivity.
Defined.

(** X5: when the parser of the provider fails, [do] returns a BadRequest
    error that wraps the parser's error, and creates no run. *)
Theorem parse_failure_is_bad_request (w : World) (r : Request.t) (err : error) :
  In err (failures (@isParseWebhook) (trace w (do r))) ->
  outcome w (do r)
    = Returned (Some (NewAPIErrorWrap ErrBadRequest err [WithAPIErrorMsg "failed to parse webhook"]))
  /\ made (@isCreateRuns) (trace w (do r)) = false.
Proof.
  unfold outcome, trace. pattern (exec w (do r)). apply do_paths; intros Hid; simpl.
  - intros [].
  - unfold doBody. paths w; intros H; simpl in H;
      try contradiction;
      destruct H as [<- | []]; split; reflexivity.
Qed.

Lemma parse_failure_is_bad_request_witness :
  In (RemoteError "signature mismatch")
     (failures (@isParseWebhook) (trace (Scenario.world Scenario.badSignature) (do Sample.request)))
  /\ outcome (Scenario.world Scenario.badSignature) (do Sample.request)
     = Returned (Some (NewAPIErrorWrap ErrBadRequest (RemoteError "signature mismatch")
                         [WithAPIErrorMsg "failed to parse webhook"])).
Proof.
  split; [left; reflexivity |].
  apply (parse_failure_is_bad_request (Scenario.world Scenario.badSignature) Sample.request).
  left. reflexivity.
Defined.

(** X6: when the git source cannot be made, or when the run creation
    fails, [do] returns an Internal error that wraps the cause; after a
    failure of the git source the payload is not parsed. *)
Theorem git_source_or_run_failure_is_internal (w : World) (r : Request.t) (err : error) :
  In err (failures (@isGetGitSource) (trace w (do r)))
  \/ In err (failures (@isCreateRuns) (trace w (do r))) ->
  (exists msg, outcome w (do r)
               = Returned (Some (NewAPIErrorWrap ErrInternal err [WithAPIErrorMsg msg])))
  /\ (In err (failures (@isGetGitSource) (trace w (do r))) ->
      made (@isParseWebhook) (trace w (do r)) = false).
Proof.
  unfold outcome, trace. pattern (exec w (do r)). apply do_paths; intros Hid; simpl.
  - intros [[] | []].
  - unfold doBody. paths w; intros H; simpl in H;
      destruct H as [H | H]; try contradiction;
      destruct H as [<- | []];
      (split; [eexists; reflexivity | intros H; simpl in H; first [reflexivity | contradiction]]).
Qed.

Lemma git_source_or_run_failure_is_internal_witness :
  In Scenario.down
     (failures (@isCreateRuns) (trace (Scenario.world Scenario.runsDown) (do Sample.request)))
  /\ (exists msg, outcome (Scenario.world Scenario.runsDown) (do Sample.request)
                  = Returned (Some (NewAPIErrorWrap ErrInternal Scenario.down
                                      [WithAPIErrorMsg msg]))).
Proof.
  split; [left; reflexivity |].
  apply (git_source_or_run_failure_is_internal (Scenario.world Scenario.runsDown)
           Sample.request Scenario.down).
  right. left. reflexivity.
Defined.

(** ** The webhook handler: the run request *)

Lemma findLinkedAccount_some (linkedAccountID : string) (linkedAccounts : list LinkedAccount.t)
    (la : LinkedAccount.t) :
  findLinkedAccount linkedAccountID linkedAccounts = Some la ->
  In la linkedAccounts /\ LinkedAccount.ID la = linkedAccountID.
Proof.
  unfold findLinkedAccount. intros H. apply List.find_some in H as [Hin Heq].
  split; [exact Hin | apply String.eqb_eq; exact Heq].
Qed.

(** X7: [do] asks for a run at most once, and what it asks for is built
    from what it fetched: the project of the [projectid] of the URL, the
    remote source of a linked account of the user that has the id the
    project refers to, the git source made for them, and the event the
    parser yielded for this request under the project's webhook
    secret. *)
Theorem run_request_comes_from_lookups (w : World) (r : Request.t) (req : CreateRunRequest.t) :
  In req (createRunsRequests (trace w (do r))) ->
  createRunsRequests (trace w (do r)) = [req]
  /\ exists csProject user linkedAccounts la rs gitSource webhookData,
       let project := csapiProject.Project csProject in
       req = newCreateRunRequest project rs gitSource webhookData
       /\ In (Ev (GetProject (url.Get (url.Query (Request.URL r)) "projectid")) (Ok csProject))
             (trace w (do r))
       /\ In (Ev (GetUserByLinkedAccount (Project.LinkedAccountID project)) (Ok user))
             (trace w (do r))
       /\ In (Ev (GetUserLinkedAccounts (User.ID user)) (Ok linkedAccounts)) (trace w (do r))
       /\ In la linkedAccounts
       /\ LinkedAccount.ID la = Project.LinkedAccountID project
       /\ In (Ev (GetRemoteSource (LinkedAccount.RemoteSourceID la)) (Ok rs)) (trace w (do r))
       /\ In (Ev (GetGitSource rs (User.Name user) la) (Ok gitSource)) (trace w (do r))
       /\ In (Ev (ParseWebhook gitSource r (Project.WebhookSecret project)) (Ok (Some webhookData)))
             (trace w (do r)).
Proof.
  unfold trace. pattern (exec w (do r)). apply do_paths; intros Hid; simpl.
  - intros [].
  - unfold doBody. paths w; intros H; simpl in H; try contradiction.
    all: destruct H as [<- | []]; split; [reflexivity |].
    all: match goal with
         | Hf : findLinkedAccount _ _ = Some _ |- _ =>
             apply findLinkedAccount_some in Hf as [Hin Hla]
         end.
    all: do 7 eexists; cbn zeta.
    all: split; [reflexivity |].
    all: repeat (split; [first [eassumption | simpl; auto 12] |]).
    all: simpl; auto 12.
Qed.

Lemma run_request_comes_from_lookups_witness :
  createRunsRequests (trace (Scenario.world Scenario.ok) (do Sample.request))
  = [newCreateRunRequest Sample.project Sample.remoteSource
       (GitSourceFor Sample.remoteSource "alice" Sample.la1) Sample.webhookData].
Proof.
  apply (run_request_comes_from_lookups (Scenario.world Scenario.ok) Sample.request).
  left. reflexivity.
Defined.

Lemma do_creates_run_witness :
  exec (Scenario.world Scenario.runsDown) (do Sample.request)
  = (Returned (Some (NewAPIErrorWrap ErrInternal Scenario.down
                       [WithAPIErrorMsg "failed to create run"])),
     [Ev (GetProject "p1") (Ok {| csapiProject.Project := Sample.project |});
      Ev (GetUserByLinkedAccount "la1") (Ok Sample.user);
      Ev (GetUserLinkedAccounts "u1") (Ok [Sample.la0; Sample.la1]);
      Ev (GetRemoteSource "rs1") (Ok Sample.remoteSource);
      Ev (GetGitSource Sample.remoteSource "alice" Sample.la1)
         (Ok (GitSourceFor Sample.remoteSource "alice" Sample.la1));
      Ev (ParseWebhook (GitSourceFor Sample.remoteSource "alice" Sample.la1) Sample.request "s3cr3t")
         (Ok (Some Sample.webhookData));
      Ev (CreateRuns (newCreateRunRequest Sample.project Sample.remoteSource
                        (GitSourceFor Sample.remoteSource "alice" Sample.la1) Sample.webhookData))
         (Some Scenario.down);
      Ev BodyClose tt]).
Proof.
  apply (do_creates_run (Scenario.world Scenario.runsDown) Sample.request
           {| csapiProject.Project := Sample.project |} Sample.user [Sample.la0; Sample.la1]
           Sample.la1 Sample.remoteSource (GitSourceFor Sample.remoteSource "alice" Sample.la1)
           Sample.webhookData (Some Scenario.down)).
  - vm_compute. discriminate.
  - reflexivity.
  - reflexivity.
  - reflexivity.
  - reflexivity.
  - reflexivity.
  - reflexivity.
  - reflexivity.
  - reflexivity.
Defined.

(** ** The webhook handler: the scan of the linked accounts *)

(** X9: the scan of lines 82-88 stops at the first linked account that
    has the id: the one it picks has the id and no earlier one has it,
    also when several have it; it picks none exactly when none has the
    id. *)
Theorem linked_account_scan_takes_first (linkedAccountID : string)
    (linkedAccounts : list LinkedAccount.t) :
  match findLinkedAccount linkedAccountID linkedAccounts with
  | Some la =>
      LinkedAccount.ID la = linkedAccountID
      /\ exists before after,
           linkedAccounts = before ++ la :: after
           /\ (forall v, In v before -> LinkedAccount.ID v <> linkedAccountID)
  | None => forall v, In v linkedAccounts -> LinkedAccount.ID v <> linkedAccountID
  end.
Proof.
  unfold findLinkedAccount.
  induction linkedAccounts as [| a l IH]; simpl.
  - intros v [].
  - destruct (String.eqb_spec (LinkedAccount.ID a) linkedAccountID) as [E | NE].
    + split; [exact E |]. exists [], l. split; [reflexivity | intros v []].
    + destruct (List.find _ l) as [la |].
      * destruct IH as [Hid (before & after & Hl & Hbefore)].
        split; [exact Hid |]. exists (a :: before), after.
        split; [rewrite Hl; reflexivity |].
        intros v [<- | Hv]; [exact NE | apply Hbefore; exact Hv].
      * intros v [<- | Hv]; [exact NE | apply IH; exact Hv].
Qed.

(** ** The secret actions: a failing ownership check *)

(** X10: when the ownership check itself fails, create, update and
    delete return its error wrapped with "failed to determine
    ownership" (not a Forbidden error), and the check is the only call
    of the run: nothing reaches the store. *)
Theorem ownership_failure_is_wrapped
    (ValidateName : string -> bool) (w : World)
    (creq : CreateSecretRequest.t) (ureq : UpdateSecretRequest.t)
    (parentType : ObjectKind) (parentRef name : string) (err : error) :
  w _ (IsAuthUserVariableOwner (CreateSecretRequest.ParentType creq)
                               (CreateSecretRequest.ParentRef creq)) = Err err ->
  w _ (IsAuthUserVariableOwner (UpdateSecretRequest.ParentType ureq)
                               (UpdateSecretRequest.ParentRef ureq)) = Err err ->
  w _ (IsAuthUserVariableOwner parentType parentRef) = Err err ->
  exec w (CreateSecret ValidateName creq)
    = (Returned (None, Some (ownershipError err)),
       [Ev (IsAuthUserVariableOwner (CreateSecretRequest.ParentType creq)
                                    (CreateSecretRequest.ParentRef creq)) (Err err)])
  /\ exec w (UpdateSecret ValidateName ureq)
     = (Returned (None, Some (ownershipError err)),
        [Ev (IsAuthUserVariableOwner (UpdateSecretRequest.ParentType ureq)
                                     (UpdateSecretRequest.ParentRef ureq)) (Err err)])
  /\ exec w (DeleteSecret parentType parentRef name)
     = (Returned (Some (ownershipError err)),
        [Ev (IsAuthUserVariableOwner parentType parentRef) (Err err)])
  /\ ownershipError err <> notAuthorizedError.
Proof.
  intros Hc Hu Hd. repeat split.
  - unfold CreateSecret. simpl. rewrite Hc. reflexivity.
  - unfold UpdateSecret. simpl. rewrite Hu. reflexivity.
  - unfold DeleteSecret. simpl. rewrite Hd. reflexivity.
  - discriminate.
Qed.

Lemma ownership_failure_is_wrapped_witness :
  outcome (Scenario.world Scenario.ownershipDown)
    (CreateSecret Sample.validateName (Sample.createRequest "tok" ObjectKindProject))
  = Returned (None, Some (ownershipError Scenario.down))
  /\ outcome (Scenario.world Scenario.ownershipDown) (DeleteSecret ObjectKindProject "ref" "tok")
     = Returned (Some (ownershipError Scenario.down)).
Proof.
  destruct (ownership_failure_is_wrapped Sample.validateName
              (Scenario.world Scenario.ownershipDown)
              (Sample.createRequest "tok" ObjectKindProject)
              (Sample.updateRequest "tok" ObjectKindProject)
              ObjectKindProject "ref" "tok" Scenario.down eq_refl eq_refl eq_refl)
    as (Hc & _ & Hd & _).
  unfold outcome. rewrite Hc, Hd. split; reflexivity.
Defined.

(** ** The secret actions: what reaches the store *)

(** X11: the fields of external secrets, [SecretProviderID] and [Path],
    play no part in create and update: a request behaves as the same
    request with any other provider id and path. *)
Theorem external_fields_are_ignored
    (ValidateName : string -> bool)
    (creq : CreateSecretRequest.t) (ureq : UpdateSecretRequest.t)
    (secretProviderID path : string) :
  CreateSecret ValidateName creq
    = CreateSecret ValidateName
        {| CreateSecretRequest.Name := CreateSecretRequest.Name creq;
           CreateSecretRequest.ParentType := CreateSecretRequest.ParentType creq;
           CreateSecretRequest.ParentRef := CreateSecretRequest.ParentRef creq;
           CreateSecretRequest.Type_ := CreateSecretRequest.Type_ creq;
           CreateSecretRequest.Data := CreateSecretRequest.Data creq;
           CreateSecretRequest.SecretProviderID := secretProviderID;
           CreateSecretRequest.Path := path |}
  /\ UpdateSecret ValidateName ureq
     = UpdateSecret ValidateName
         {| UpdateSecretRequest.SecretName := UpdateSecretRequest.SecretName ureq;
            UpdateSecretRequest.Name := UpdateSecretRequest.Name ureq;
            UpdateSecretRequest.ParentType := UpdateSecretRequest.ParentType ureq;
            UpdateSecretRequest.ParentRef := UpdateSecretRequest.ParentRef ureq;
            UpdateSecretRequest.Type_ := UpdateSecretRequest.Type_ ureq;
            UpdateSecretRequest.Data := UpdateSecretRequest.Data ureq;
            UpdateSecretRequest.SecretProviderID := secretProviderID;
            UpdateSecretRequest.Path := path |}.
Proof. destruct creq, ureq. split; reflexivity. Qed.

(** X12: every secret action asks the store for at most one mutation,
    and it is the action's own: create asks for a create, update for an
    update of the secret named [SecretName], delete for a delete of the
    named secret, each on the kind and reference of the request's
    parent; create and update send the request's name, type and data.
    Reading secrets asks for none. *)
Theorem at_most_one_mutation_of_own_kind
    (ValidateName : string -> bool) (w : World)
    (creq : CreateSecretRequest.t) (ureq : UpdateSecretRequest.t)
    (parentType : ObjectKind) (parentRef name : string) (greq : GetSecretsRequest.t) :
  (mutations (trace w (CreateSecret ValidateName creq)) = []
   \/ mutations (trace w (CreateSecret ValidateName creq))
      = [{| Mutation.Op := OpCreate;
            Mutation.Kind := CreateSecretRequest.ParentType creq;
            Mutation.Ref := CreateSecretRequest.ParentRef creq;
            Mutation.Target := "";
            Mutation.Payload := Some (payload (CreateSecretRequest.Name creq)
                                              (CreateSecretRequest.Type_ creq)
                                              (CreateSecretRequest.Data creq)) |}])
  /\ (mutations (trace w (UpdateSecret ValidateName ureq)) = []
      \/ mutations (trace w (UpdateSecret ValidateName ureq))
         = [{| Mutation.Op := OpUpdate;
               Mutation.Kind := UpdateSecretRequest.ParentType ureq;
               Mutation.Ref := UpdateSecretRequest.ParentRef ureq;
               Mutation.Target := UpdateSecretRequest.SecretName ureq;
               Mutation.Payload := Some (payload (UpdateSecretRequest.Name ureq)
                                                 (UpdateSecretRequest.Type_ ureq)
                                                 (UpdateSecretRequest.Data ureq)) |}])
  /\ (mutations (trace w (DeleteSecret parentType parentRef name)) = []
      \/ mutations (trace w (DeleteSecret parentType parentRef name))
         = [{| Mutation.Op := OpDelete;
               Mutation.Kind := parentType;
               Mutation.Ref := parentRef;
               Mutation.Target := name;
               Mutation.Payload := None |}])
  /\ mutations (trace w (GetSecrets greq)) = [].
Proof.
  unfold trace. repeat split.
  - unfold CreateSecret. simpl.
    destruct (w _ (IsAuthUserVariableOwner _ _)) as [[|] | e]; simpl; auto.
    destruct (ValidateName _); simpl; auto.
    destruct (CreateSecretRequest.ParentType creq); simpl; auto.
    + destruct (w _ (CreateProjectGroupSecret _ _)); simpl; auto.
    + destruct (w _ (CreateProjectSecret _ _)); simpl; auto.
  - unfold UpdateSecret. simpl.
    destruct (w _ (IsAuthUserVariableOwner _ _)) as [[|] | e]; simpl; auto.
    destruct (ValidateName _); simpl; auto.
    destruct (UpdateSecretRequest.ParentType ureq); simpl; auto.
    + destruct (w _ (UpdateProjectGroupSecret _ _ _)); simpl; auto.
    + destruct (w _ (UpdateProjectSecret _ _ _)); simpl; auto.
  - unfold DeleteSecret. simpl.
    destruct (w _ (IsAuthUserVariableOwner _ _)) as [[|] | e]; simpl; auto.
    destruct parentType; simpl; auto.
    + destruct (w _ (DeleteProjectGroupSecret _ _)); simpl; auto.
    + destruct (w _ (DeleteProjectSecret _ _)); simpl; auto.
  - unfold GetSecrets.
    destruct (GetSecretsRequest.ParentType greq); simpl.
    + destruct (w _ (GetProjectGroupSecrets _ _)); reflexivity.
    + destruct (w _ (GetProjectSecrets _ _)); reflexivity.
    + reflexivity.
Qed.

(** ** The secret actions: outcomes *)


(** X14: when create or update returns, it returns either a secret and
    a nil error, or a nil secret and an error: never both, never
    neither.  The reading of secrets returns an empty list whenever it
    returns an error. *)
Theorem secret_actions_return_value_or_error
    (ValidateName : string -> bool) (w : World)
    (creq : CreateSecretRequest.t) (ureq : UpdateSecretRequest.t) (greq : GetSecretsRequest.t) :
  match outcome w (CreateSecret ValidateName creq) with
  | Returned (Some _, None) | Returned (None, Some _) | Panicked => True
  | Returned (Some _, Some _) | Returned (None, None) => False
  end
  /\ match outcome w (UpdateSecret ValidateName ureq) with
     | Returned (Some _, None) | Returned (None, Some _) | Panicked => True
     | Returned (Some _, Some _) | Returned (None, None) => False
     end
  /\ match outcome w (GetSecrets greq) with
     | Returned (_, None) | Returned ([], Some _) | Panicked => True
     | Returned (_ :: _, Some _) => False
     end.
Proof.
  unfold outcome. repeat apply conj.
  - unfold CreateSecret. simpl.
    destruct (w _ (IsAuthUserVariableOwner _ _)) as [[|] | e]; simpl; auto.
    destruct (ValidateName _); simpl; auto.
    destruct (CreateSecretRequest.ParentType creq); simpl; auto.
    + destruct (w _ (CreateProjectGroupSecret _ _)); simpl; auto.
    + destruct (w _ (CreateProjectSecret _ _)); simpl; auto.
  - unfold UpdateSecret. simpl.
    destruct (w _ (IsAuthUserVariableOwner _ _)) as [[|] | e]; simpl; auto.
    destruct (ValidateName _); simpl; auto.
    destruct (UpdateSecretRequest.ParentType ureq); simpl; auto.
    + destruct (w _ (UpdateProjectGroupSecret _ _ _)); simpl; auto.
    + destruct (w _ (UpdateProjectSecret _ _ _)); simpl; auto.
  - unfold GetSecrets.
    destruct (GetSecretsRequest.ParentType greq); simpl.
    + destruct (w _ (GetProjectGroupSecrets _ _)) as [l | e]; simpl; [| exact I].
      destruct (if GetSecretsRequest.RemoveOverridden greq then _ else _); exact I.
    + destruct (w _ (GetProjectSecrets _ _)) as [l | e]; simpl; [| exact I].
      destruct (if GetSecretsRequest.RemoveOverridden greq then _ else _); exact I.
    + destruct (if GetSecretsRequest.RemoveOverridden greq then _ else _); exact I.
Qed.

(** ** The secret actions: the delegation to the store *)

(** X15: delete checks no name.  For a variable owner and a parent that
    is a project group or a project, the store is asked to delete the
    secret of the given name, whatever the name is, after one log line;
    the action returns nil when the store does, and the store's error
    passed through [APIErrorFromRemoteError] otherwise. *)
Theorem delete_mirrors_store
    (w : World) (parentType : ObjectKind) (parentRef name : string) (answer : option error) :
  w _ (IsAuthUserVariableOwner parentType parentRef) = Ok true ->
  (parentType = ObjectKindProjectGroup
   /\ w _ (DeleteProjectGroupSecret parentRef name) = answer)
  \/ (parentType = ObjectKindProject
      /\ w _ (DeleteProjectSecret parentRef name) = answer) ->
  outcome w (DeleteSecret parentType parentRef name)
    = Returned match answer with
               | Some err => Some (APIErrorFromRemoteError err
                                     [WithAPIErrorMsg "failed to delete secret"])
               | None => None
               end
  /\ mutations (trace w (DeleteSecret parentType parentRef name))
     = [{| Mutation.Op := OpDelete; Mutation.Kind := parentType; Mutation.Ref := parentRef;
           Mutation.Target := name; Mutation.Payload := None |}]
  /\ count (@isLog) (trace w (DeleteSecret parentType parentRef name)) = 1.
Proof.
  intros Ho Hstore. unfold outcome, trace, DeleteSecret. simpl. rewrite Ho. simpl.
  destruct Hstore as [[-> Hw] | [-> Hw]]; simpl; rewrite Hw;
    destruct answer; simpl; repeat split.
Qed.

Lemma delete_mirrors_store_witness :
  outcome (Scenario.world Scenario.storeDown) (DeleteSecret ObjectKindProject "ref" "")
  = Returned (Some (APIErrorFromRemoteError Scenario.down
                      [WithAPIErrorMsg "failed to delete secret"]))
  /\ outcome (Scenario.world Scenario.ok) (DeleteSecret ObjectKindProjectGroup "ref" "t k")
     = Returned None.
Proof.
  split.
  - apply (delete_mirrors_store (Scenario.world Scenario.storeDown) ObjectKindProject "ref" ""
             (Some Scenario.down) eq_refl).
    right. split; reflexivity.
  - apply (delete_mirrors_store (Scenario.world Scenario.ok) ObjectKindProjectGroup "ref" "t k"
             None eq_refl).
    left. split; reflexivity.
Defined.

(** X16: for a variable owner, a name that passes the rule and a parent
    that is a project group or a project, create sends the request's
    name, type and data to the store operation of that kind.  When the
    store answers a secret, create returns that very secret and its last
    call is the log line with the secret's name and id; when the store
    fails, create returns no secret and the store's error passed through
    [APIErrorFromRemoteError], and the only log line is the one before
    the store call. *)
Theorem create_delegates_to_store
    (ValidateName : string -> bool) (w : World) (req : CreateSecretRequest.t)
    (res : result Secret.t) :
  let creq := payload (CreateSecretRequest.Name req) (CreateSecretRequest.Type_ req)
                      (CreateSecretRequest.Data req) in
  w _ (IsAuthUserVariableOwner (CreateSecretRequest.ParentType req)
                               (CreateSecretRequest.ParentRef req)) = Ok true ->
  ValidateName (CreateSecretRequest.Name req) = true ->
  (CreateSecretRequest.ParentType req = ObjectKindProjectGroup
   /\ w _ (CreateProjectGroupSecret (CreateSecretRequest.ParentRef req) creq) = res)
  \/ (CreateSecretRequest.ParentType req = ObjectKindProject
      /\ w _ (CreateProjectSecret (CreateSecretRequest.ParentRef req) creq) = res) ->
  mutations (trace w (CreateSecret ValidateName req))
    = [{| Mutation.Op := OpCreate; Mutation.Kind := CreateSecretRequest.ParentType req;
          Mutation.Ref := CreateSecretRequest.ParentRef req; Mutation.Target := "";
          Mutation.Payload := Some creq |}]
  /\ match res with
     | Ok s =>
         outcome w (CreateSecret ValidateName req) = Returned (Some s, None)
         /\ exists calls,
              trace w (CreateSecret ValidateName req)
              = calls ++ [Ev (LogInfof "secret %s created, ID: %s" [Secret.Name s; Secret.ID s])
                             (w _ (LogInfof "secret %s created, ID: %s"
                                            [Secret.Name s; Secret.ID s]))]
     | Err err =>
         outcome w (CreateSecret ValidateName req)
           = Returned (None, Some (APIErrorFromRemoteError err
                                     [WithAPIErrorMsg "failed to create secret"]))
         /\ count (@isLog) (trace w (CreateSecret ValidateName req)) = 1
     end.
Proof.
  intros creq Ho Hv Hstore. subst creq. unfold payload in *.
  unfold outcome, trace, CreateSecret. simpl.
  rewrite Ho. simpl. rewrite Hv. simpl.
  destruct Hstore as [[-> Hw] | [-> Hw]]; simpl; rewrite Hw;
    destruct res as [s | err]; simpl; (split; [reflexivity |]); split;
      first [reflexivity | eexists [_; _; _]; reflexivity].
Qed.

Lemma create_delegates_to_store_witness :
  outcome (Scenario.world Scenario.ok)
    (CreateSecret Sample.validateName (Sample.createRequest "tok" ObjectKindProject))
  = Returned (Some {| Secret.ID := "new"; Secret.Name := "tok";
                      Secret.ParentKind := ObjectKindProject; Secret.Level := 2 |}, None).
Proof.
  apply (create_delegates_to_store Sample.validateName (Scenario.world Scenario.ok)
           (Sample.createRequest "tok" ObjectKindProject)
           (Ok {| Secret.ID := "new"; Secret.Name := "tok";
                  Secret.ParentKind := ObjectKindProject; Secret.Level := 2 |})
           eq_refl eq_refl).
  right. split; reflexivity.
Defined.

(** X17: update addresses the secret by [SecretName] and sends [Name]
    as its name: the rule is checked on [Name] alone, so an update may
    rename a secret whose current name fails the rule.  As for create,
    the secret the store answers is the one returned, and a failure of
    the store is returned through [APIErrorFromRemoteError]. *)
Theorem update_delegates_to_store
    (ValidateName : string -> bool) (w : World) (req : UpdateSecretRequest.t)
    (res : result Secret.t) :
  let creq := payload (UpdateSecretRequest.Name req) (UpdateSecretRequest.Type_ req)
                      (UpdateSecretRequest.Data req) in
  w _ (IsAuthUserVariableOwner (UpdateSecretRequest.ParentType req)
                               (UpdateSecretRequest.ParentRef req)) = Ok true ->
  ValidateName (UpdateSecretRequest.Name req) = true ->
  (UpdateSecretRequest.ParentType req = ObjectKindProjectGroup
   /\ w _ (UpdateProjectGroupSecret (UpdateSecretRequest.ParentRef req)
             (UpdateSecretRequest.SecretName req) creq) = res)
  \/ (UpdateSecretRequest.ParentType req = ObjectKindProject
      /\ w _ (UpdateProjectSecret (UpdateSecretRequest.ParentRef req)
                (UpdateSecretRequest.SecretName req) creq) = res) ->
  mutations (trace w (UpdateSecret ValidateName req))
    = [{| Mutation.Op := OpUpdate; Mutation.Kind := UpdateSecretRequest.ParentType req;
          Mutation.Ref := UpdateSecretRequest.ParentRef req;
          Mutation.Target := UpdateSecretRequest.SecretName req;
          Mutation.Payload := Some creq |}]
  /\ match res with
     | Ok s =>
         outcome w (UpdateSecret ValidateName req) = Returned (Some s, None)
         /\ exists calls,
              trace w (UpdateSecret ValidateName req)
              = calls ++ [Ev (LogInfof "secret %s updated, ID: %s" [Secret.Name s; Secret.ID s])
                             (w _ (LogInfof "secret %s updated, ID: %s"
                                            [Secret.Name s; Secret.ID s]))]
     | Err err =>
         outcome w (UpdateSecret ValidateName req)
           = Returned (None, Some (APIErrorFromRemoteError err
                                     [WithAPIErrorMsg "failed to update secret"]))
         /\ count (@isLog) (trace w (UpdateSecret ValidateName req)) = 1
     end.
Proof.
  intros creq Ho Hv Hstore. subst creq. unfold payload in *.
  unfold outcome, trace, UpdateSecret. simpl.
  rewrite Ho. simpl. rewrite Hv. simpl.
  destruct Hstore as [[-> Hw] | [-> Hw]]; simpl; rewrite Hw;
    destruct res as [s | err]; simpl; (split; [reflexivity |]); split;
      first [reflexivity | eexists [_; _; _]; reflexivity].
Qed.

Lemma update_delegates_to_store_witness :
  Sample.validateName "o l d" = false
  /\ mutations (trace (Scenario.world Scenario.ok)
       (UpdateSecret Sample.validateName
          {| UpdateSecretRequest.SecretName := "o l d"; UpdateSecretRequest.Name := "new";
             UpdateSecretRequest.ParentType := ObjectKindProject;
             UpdateSecretRequest.ParentRef := "ref";
             UpdateSecretRequest.Type_ := SecretTypeInternal;
             UpdateSecretRequest.Data := ∅;
             UpdateSecretRequest.SecretProviderID := ""; UpdateSecretRequest.Path := "" |}))
     = [{| Mutation.Op := OpUpdate; Mutation.Kind := ObjectKindProject; Mutation.Ref := "ref";
           Mutation.Target := "o l d";
           Mutation.Payload := Some (payload "new" SecretTypeInternal ∅) |}].
Proof.
  split; [reflexivity |].
  apply (update_delegates_to_store Sample.validateName (Scenario.world Scenario.ok)
           {| UpdateSecretRequest.SecretName := "o l d"; UpdateSecretRequest.Name := "new";
              UpdateSecretRequest.ParentType := ObjectKindProject;
              UpdateSecretRequest.ParentRef := "ref";
              UpdateSecretRequest.Type_ := SecretTypeInternal;
              UpdateSecretRequest.Data := ∅;
              UpdateSecretRequest.SecretProviderID := ""; UpdateSecretRequest.Path := "" |}
           (Ok (Sample.stored (payload "new" SecretTypeInternal ∅) ObjectKindProject 2))
           eq_refl eq_refl).
  right. split; reflexivity.
Defined.

(** ** Reading secrets: the calls *)

(** X18: reading secrets is not guarded: whatever the request and the
    answers, [GetSecrets] never asks whether the caller owns the
    variables, writes no log line, and makes at most one call, a lookup
    on the store. *)
Theorem get_secrets_is_one_unguarded_lookup (w : World) (req : GetSecretsRequest.t) :
  made (@isOwnershipCheck) (trace w (GetSecrets req)) = false
  /\ made (@isLog) (trace w (GetSecrets req)) = false
  /\ length (trace w (GetSecrets req)) <= 1
  /\ count (@isStoreCall) (trace w (GetSecrets req)) = length (trace w (GetSecrets req)).
Proof.
  unfold trace, GetSecrets.
  destruct (GetSecretsRequest.ParentType req); simpl.
  - destruct (w _ (GetProjectGroupSecrets _ _)); simpl; repeat split; lia.
  - destruct (w _ (GetProjectSecrets _ _)); simpl; repeat split; lia.
  - repeat split; lia.
Qed.

(** X19: for a parent that is neither a project group nor a project,
    [GetSecrets] returns an empty list and no error without any call,
    whatever the tree and remove-overridden flags. *)
Theorem get_secrets_other_kind_is_empty (w : World) (req : GetSecretsRequest.t) :
  GetSecretsRequest.ParentType req <> ObjectKindProjectGroup ->
  GetSecretsRequest.ParentType req <> ObjectKindProject ->
  exec w (GetSecrets req) = (Returned ([], None), []).
Proof.
  intros Hpg Hp. unfold GetSecrets.
  destruct (GetSecretsRequest.ParentType req); [contradiction | contradiction |].
  simpl. destruct (GetSecretsRequest.RemoveOverridden req); reflexivity.
Qed.

Lemma get_secrets_other_kind_is_empty_witness :
  exec (Scenario.world Scenario.ok)
    (GetSecrets {| GetSecretsRequest.ParentType := ObjectKindOther "user";
                   GetSecretsRequest.ParentRef := "u1";
                   GetSecretsRequest.Tree := true;
                   GetSecretsRequest.RemoveOverridden := true |})
  = (Returned ([], None), []).
Proof.
  apply (get_secrets_other_kind_is_empty (Scenario.world Scenario.ok)
           {| GetSecretsRequest.ParentType := ObjectKindOther "user";
              GetSecretsRequest.ParentRef := "u1";
              GetSecretsRequest.Tree := true;
              GetSecretsRequest.RemoveOverridden := true |});
    discriminate.
Defined.

(** X20: without the remove-overridden flag, [GetSecrets] returns the
    list the store answers for the request's parent and tree flag as it
    is: same secrets, same order, overridden ones included. *)
Theorem get_secrets_unfiltered_is_store_answer
    (w : World) (req : GetSecretsRequest.t) (secrets : list Secret.t) :
  GetSecretsRequest.RemoveOverridden req = false ->
  (GetSecretsRequest.ParentType req = ObjectKindProjectGroup
   /\ w _ (GetProjectGroupSecrets (GetSecretsRequest.ParentRef req) (GetSecretsRequest.Tree req))
      = Ok secrets)
  \/ (GetSecretsRequest.ParentType req = ObjectKindProject
      /\ w _ (GetProjectSecrets (GetSecretsRequest.ParentRef req) (GetSecretsRequest.Tree req))
         = Ok secrets) ->
  outcome w (GetSecrets req) = Returned (secrets, None)
  /\ length (trace w (GetSecrets req)) = 1.
Proof.
  intros Hflag Hstore. unfold outcome, trace, GetSecrets.
  destruct Hstore as [[-> Hw] | [-> Hw]]; simpl; rewrite Hw; simpl; rewrite Hflag;
    split; reflexivity.
Qed.

Lemma get_secrets_unfiltered_is_store_answer_witness :
  outcome (Scenario.world Scenario.ok)
    (GetSecrets {| GetSecretsRequest.ParentType := ObjectKindProject;
                   GetSecretsRequest.ParentRef := "p1";
                   GetSecretsRequest.Tree := true;
                   GetSecretsRequest.RemoveOverridden := false |})
  = Returned ([Sample.secretAGroup; Sample.secretAProject; Sample.secretBGroup], None).
Proof.
  apply (get_secrets_unfiltered_is_store_answer (Scenario.world Scenario.ok)
           {| GetSecretsRequest.ParentType := ObjectKindProject;
              GetSecretsRequest.ParentRef := "p1";
              GetSecretsRequest.Tree := true;
              GetSecretsRequest.RemoveOverridden := false |}
           [Sample.secretAGroup; Sample.secretAProject; Sample.secretBGroup] eq_refl).
  right. split; reflexivity.
Defined.

(** X21: when the store fails, [GetSecrets] returns an empty list and
    the store's error passed through [APIErrorFromRemoteError] with no
    message added, whatever the flags: the filter is not reached. *)
Theorem get_secrets_store_failure
    (w : World) (req : GetSecretsRequest.t) (err : error) :
  (GetSecretsRequest.ParentType req = ObjectKindProjectGroup
   /\ w _ (GetProjectGroupSecrets (GetSecretsRequest.ParentRef req) (GetSecretsRequest.Tree req))
      = Err err)
  \/ (GetSecretsRequest.ParentType req = ObjectKindProject
      /\ w _ (GetProjectSecrets (GetSecretsRequest.ParentRef req) (GetSecretsRequest.Tree req))
         = Err err) ->
  outcome w (GetSecrets req) = Returned ([], Some (APIErrorFromRemoteError err [])).
Proof.
  intros Hstore. unfold outcome, GetSecrets.
  destruct Hstore as [[-> Hw] | [-> Hw]]; simpl; rewrite Hw; reflexivity.
Qed.

Lemma get_secrets_store_failure_witness :
  outcome (Scenario.world Scenario.storeDown)
    (GetSecrets {| GetSecretsRequest.ParentType := ObjectKindProjectGroup;
                   GetSecretsRequest.ParentRef := "g1";
                   GetSecretsRequest.Tree := false;
                   GetSecretsRequest.RemoveOverridden := true |})
  = Returned ([], Some (APIErrorFromRemoteError Scenario.down [])).
Proof.
  apply (get_secrets_store_failure (Scenario.world Scenario.storeDown)
           {| GetSecretsRequest.ParentType := ObjectKindProjectGroup;
              GetSecretsRequest.ParentRef := "g1";
              GetSecretsRequest.Tree := false;
              GetSecretsRequest.RemoveOverridden := true |} Scenario.down).
  left. split; reflexivity.
Defined.

(** ** The secret actions: after a failure *)

(** X22: a secret action makes no call after a collaborator has failed:
    a failed ownership check is not followed by a store call, and a
    failed store call is not followed by the log line of success. *)
Theorem secret_actions_stop_at_first_failure
    (ValidateName : string -> bool) (w : World)
    (creq : CreateSecretRequest.t) (ureq : UpdateSecretRequest.t)
    (parentType : ObjectKind) (parentRef name : string) (greq : GetSecretsRequest.t)
    (rest : list Event) :
  afterFirstFailure (trace w (CreateSecret ValidateName creq)) = Some rest
  \/ afterFirstFailure (trace w (UpdateSecret ValidateName ureq)) = Some rest
  \/ afterFirstFailure (trace w (DeleteSecret parentType parentRef name)) = Some rest
  \/ afterFirstFailure (trace w (GetSecrets greq)) = Some rest ->
  rest = [].
Proof.
  unfold trace. intros [H | [H | [H | H]]]; revert H.
  - unfold CreateSecret. simpl.
    destruct (w _ (IsAuthUserVariableOwner _ _)) as [[|] | e]; simpl;
      [| discriminate | intros [= <-]; reflexivity].
    destruct (ValidateName _); simpl; [| discriminate].
    destruct (CreateSecretRequest.ParentType creq); simpl; [| | discriminate].
    + destruct (w _ (CreateProjectGroupSecret _ _)); simpl;
        [discriminate | intros [= <-]; reflexivity].
    + destruct (w _ (CreateProjectSecret _ _)); simpl;
        [discriminate | intros [= <-]; reflexivity].
  - unfold UpdateSecret. simpl.
    destruct (w _ (IsAuthUserVariableOwner _ _)) as [[|] | e]; simpl;
      [| discriminate | intros [= <-]; reflexivity].
    destruct (ValidateName _); simpl; [| discriminate].
    destruct (UpdateSecretRequest.ParentType ureq); simpl; [| | discriminate].
    + destruct (w _ (UpdateProjectGroupSecret _ _ _)); simpl;
        [discriminate | intros [= <-]; reflexivity].
    + destruct (w _ (UpdateProjectSecret _ _ _)); simpl;
        [discriminate | intros [= <-]; reflexivity].
  - unfold DeleteSecret. simpl.
    destruct (w _ (IsAuthUserVariableOwner _ _)) as [[|] | e]; simpl;
      [| discriminate | intros [= <-]; reflexivity].
    destruct parentType; simpl; [| | discriminate].
    + destruct (w _ (DeleteProjectGroupSecret _ _)); simpl;
        [intros [= <-]; reflexivity | discriminate].
    + destruct (w _ (DeleteProjectSecret _ _)); simpl;
        [intros [= <-]; reflexivity | discriminate].
  - unfold GetSecrets.
    destruct (GetSecretsRequest.ParentType greq); simpl; [| | discriminate].
    + destruct (w _ (GetProjectGroupSecrets _ _)); simpl;
        [discriminate | intros [= <-]; reflexivity].
    + destruct (w _ (GetProjectSecrets _ _)); simpl;
        [discriminate | intros [= <-]; reflexivity].
Qed.

Lemma secret_actions_stop_at_first_failure_witness :
  exists rest,
    afterFirstFailure
      (trace (Scenario.world Scenario.storeDown)
         (CreateSecret Sample.validateName (Sample.createRequest "tok" ObjectKindProject)))
    = Some rest
    /\ rest = [].
Proof.
  exists []. split; [reflexivity |].
  apply (secret_actions_stop_at_first_failure Sample.validateName
           (Scenario.world Scenario.storeDown)
           (Sample.createRequest "tok" ObjectKindProject)
           (Sample.updateRequest "tok" ObjectKindProject)
           ObjectKindProject "ref" "tok"
           {| GetSecretsRequest.ParentType := ObjectKindProject;
              GetSecretsRequest.ParentRef := "p1";
              GetSecretsRequest.Tree := false;
              GetSecretsRequest.RemoveOverridden := false |}
           []).
  left. reflexivity.
Defined.

(** ** The webhook handler: what it leaves alone *)

(** X23: the webhook handler only reads from the store: whatever the
    request and the answers, it asks for no mutation and no ownership
    check, makes at most seven calls besides the close of the body and
    the log, and writes at most one log line. *)
Theorem webhook_handler_only_reads (w : World) (r : Request.t) :
  mutations (trace w (do r)) = []
  /\ made (@isOwnershipCheck) (trace w (do r)) = false
  /\ count (@isRemoteCall) (trace w (do r)) <= 7
  /\ count (@isLog) (trace w (do r)) <= 1.
Proof.
  unfold trace. pattern (exec w (do r)). apply do_paths; intros Hid; cbn [fst snd].
  - repeat split; unfold count; simpl; lia.
  - unfold doBody. paths w; repeat split; unfold count; simpl; lia.
Qed.
